(** * Recipe Bot: a shallow embedding of [recipe_bot.py]

    The file follows the Python module top to bottom: the strings the
    program works on, the values exchanged with the completion service,
    the mutable world the script runs in (environment, list objects,
    Streamlit session state, the effects the script performs), the class
    [RecipeBot] and the Streamlit script [main].  The properties of the
    specification are proved at the end. *)

From Stdlib Require Import QArith Ascii.
From stdpp Require Import gmap strings list.

(** ** Python strings *)

(** A [str] is kept as the string of its UTF-8 bytes.  The keywords of the
    fallback responder are ASCII, and UTF-8 is self-synchronising, so
    containment of a keyword in the bytes is containment in the text. *)

(** [word in s] on two [str]: [word] occurs in [s] as a contiguous run. *)
Fixpoint str_in (word s : string) : bool :=
  String.prefix word s
  || match s with
     | EmptyString => false
     | String _ s' => str_in word s'
     end.

(** [str.lower] on the ASCII range: the letters [A]..[Z] go to [a]..[z] and
    every other byte is kept.  On a [str] of ASCII characters this is what
    Python computes; the Unicode case tables are not part of the program, so
    the program below takes its [str.lower] from the [Runtime]. *)
Definition ascii_lower_char (c : ascii) : ascii :=
  let n := N_of_ascii c in
  if ((65 <=? n) && (n <=? 90))%N then ascii_of_N (n + 32) else c.

Fixpoint ascii_lower (s : string) : string :=
  match s with
  | EmptyString => EmptyString
  | String c s' => String (ascii_lower_char c) (ascii_lower s')
  end.

(** ** Exceptions and results *)

(** [Exception msg] stands for any exception below [Exception], with [msg]
    its [str()]; [RerunException] is what [st.rerun()] raises to stop the
    script, and it is not caught by [except Exception]. *)
Inductive exn : Type :=
  | Exception (msg : string)
  | RerunException.

Inductive result (A : Type) : Type :=
  | Val (a : A)
  | Raise (e : exn).
Arguments Val {A} a.
Arguments Raise {A} e.

(** What a call of a library outside the repository comes back with: a
    value, or a failure that Python raises as an exception below
    [Exception] with [msg] as its [str()]. *)
Inductive reply (A : Type) : Type :=
  | Returns (a : A)
  | Fails (msg : string).
Arguments Returns {A} a.
Arguments Fails {A} msg.

Definition result_of {A} (r : reply A) : result A :=
  match r with
  | Returns a => Val a
  | Fails msg => Raise (Exception msg)
  end.

(** ** The completion service *)

(** A chat turn, the dict [{"role": ..., "content": ...}]. *)
Record Turn : Type := { role : string; content : string }.

Module openai.

(** [openai.OpenAI(api_key=...)] *)
Record OpenAI : Type := { api_key : option string }.

(** The keyword arguments of [client.chat.completions.create].  The
    temperature is kept as the decimal fraction the literal is written as. *)
Record Request : Type := {
  model : string;
  messages : list Turn;
  max_tokens : Z;
  temperature : Q;
}.

(** [response.choices[i].message.content] *)
Record Choice : Type := { message : Turn }.
Record Response : Type := { choices : list Choice }.

End openai.

(** ** The world of the script *)

(** List objects live in a store and are named by their location: two names
    of one list see each other's [append]. *)
Definition loc : Type := positive.

Record RecipeBot : Type := {
  client : option openai.OpenAI;
  system_prompt : string;
}.

Module st.

(** [st.session_state]: the keys ['bot'] and ['messages'], each present
    or not. *)
Record session_state : Type := {
  bot : option RecipeBot;
  messages : option loc;
}.

End st.

(** What the script does to the outside, in the order it does it. *)
Inductive Event : Type :=
  | GetTemplate (name : string) (additional_context : option string)
  | StWarning (body : string)
  | StError (body : string)
  | ChatCompletionsCreate (client : openai.OpenAI) (request : openai.Request).

Record World : Type := {
  environ : gmap string string;
  heap : gmap loc (list Turn);
  session_state : st.session_state;
  events : list Event;
}.

(** What the program takes from outside the repository: Python's
    [str.lower], the Jinja2 environment over the working directory (the
    template file is not part of the sources), and the hosted completion
    service.  The last two may answer differently every time, so they see
    the events so far. *)
Class Runtime : Type := {
  str_lower : string -> string;
  jinja2_render : list Event -> string -> option string -> reply string;
  chat_completions_create :
    list Event -> openai.OpenAI -> openai.Request -> reply openai.Response;
}.

Definition add_event (ev : Event) (w : World) : World :=
  {| environ := environ w; heap := heap w;
     session_state := session_state w; events := events w ++ [ev] |}.

Definition set_heap (h : gmap loc (list Turn)) (w : World) : World :=
  {| environ := environ w; heap := h;
     session_state := session_state w; events := events w |}.

Definition set_session (s : st.session_state) (w : World) : World :=
  {| environ := environ w; heap := heap w;
     session_state := s; events := events w |}.

(** ** The script monad: state and exceptions *)

Definition M (A : Type) : Type := World -> result A * World.

Definition ret {A} (a : A) : M A := fun w => (Val a, w).

Definition bind {A B} (m : M A) (k : A -> M B) : M B :=
  fun w =>
    match m w with
    | (Val a, w') => k a w'
    | (Raise e, w') => (Raise e, w')
    end.

Definition raise {A} (e : exn) : M A := fun w => (Raise e, w).

(** [try: body  except Exception as e: handler e].  What [body] did to the
    world before it raised stays done. *)
Definition try_except {A} (body : M A) (handler : exn -> M A) : M A :=
  fun w =>
    match body w with
    | (Raise (Exception msg), w') => handler (Exception msg) w'
    | r => r
    end.

Declare Scope script_scope.
Delimit Scope script_scope with script.
Notation "x <- m ;; k" := (bind m (fun x => k))
  (at level 100, m at next level, right associativity) : script_scope.
Notation "m ;; k" := (bind m (fun _ => k))
  (at level 100, right associativity) : script_scope.
Open Scope script_scope.

(** [str(e)] *)
Definition str (e : exn) : string :=
  match e with
  | Exception msg => msg
  | RerunException => ""
  end.

Definition emit (ev : Event) : M unit :=
  fun w => (Val tt, add_event ev w).

(** [os.getenv(name)] *)
Definition getenv (name : string) : M (option string) :=
  fun w => (Val (environ w !! name), w).

(** Truth value of [os.getenv(...)]: [None] and the empty string are false. *)
Definition truthy (v : option string) : bool :=
  match v with
  | None => false
  | Some s => negb (String.eqb s "")
  end.

(** A new list object holding [xs]. *)
Definition new_list (xs : list Turn) : M loc :=
  fun w =>
    let l := fresh (dom (heap w)) in
    (Val l, set_heap (<[l := xs]> (heap w)) w).

(** The elements of the list object at [l], as iteration or slicing sees
    them. *)
Definition read_list (l : loc) : M (list Turn) :=
  fun w =>
    match heap w !! l with
    | Some xs => (Val xs, w)
    | None => (Raise (Exception "dangling reference"), w)
    end.

(** [l.append(x)] *)
Definition list_append (l : loc) (x : Turn) : M unit :=
  fun w =>
    match heap w !! l with
    | Some xs => (Val tt, set_heap (<[l := xs ++ [x]]> (heap w)) w)
    | None => (Raise (Exception "dangling reference"), w)
    end.

Definition get_session_state : M st.session_state :=
  fun w => (Val (session_state w), w).

Definition set_session_state (s : st.session_state) : M unit :=
  fun w => (Val tt, set_session s w).

(** [st.session_state.bot] and [st.session_state.messages]; a missing key
    is an [AttributeError]. *)
Definition session_bot : M RecipeBot :=
  s <- get_session_state ;;
  match st.bot s with
  | Some b => ret b
  | None => raise (Exception "st.session_state has no attribute bot")
  end.

Definition session_messages : M loc :=
  s <- get_session_state ;;
  match st.messages s with
  | Some l => ret l
  | None => raise (Exception "st.session_state has no attribute messages")
  end.

(** [xs[0]] *)
Definition first {A} (xs : list A) : M A :=
  match xs with
  | x :: _ => ret x
  | [] => raise (Exception "list index out of range")
  end.

(** [env.get_template(name)] followed by [template.render(additional_context=...)]:
    one read of the working directory, answered by the Jinja2 environment. *)
Definition render_template `{!Runtime} (name : string)
    (additional_context : option string) : M string :=
  fun w =>
    (result_of (jinja2_render (events w) name additional_context),
     add_event (GetTemplate name additional_context) w).

(** [client.chat.completions.create(...)]: one call of the service. *)
Definition create `{!Runtime} (client : openai.OpenAI)
    (request : openai.Request) : M openai.Response :=
  fun w =>
    (result_of (chat_completions_create (events w) client request),
     add_event (ChatCompletionsCreate client request) w).

Definition st_warning (body : string) : M unit := emit (StWarning body).
Definition st_error (body : string) : M unit := emit (StError body).

(** [st.rerun()] *)
Definition st_rerun : M unit := raise RerunException.

(** ** class RecipeBot *)

(** The literals of the class. *)
Definition default_system_prompt : string :=
"You are a helpful recipe bot assistant. You specialize in:
            - Suggesting recipes based on ingredients or dietary preferences
            - Providing cooking instructions and tips
            - Helping with meal planning
            - Answering cooking and nutrition questions
            
            Keep your responses helpful, friendly, and focused on recipes and cooking.".

Definition pasta_reply : string :=
  "🍝 Here's a simple pasta recipe: Cook pasta according to package directions. Meanwhile, heat olive oil in a pan, add garlic, then your favorite sauce. Toss with pasta and enjoy!".

Definition meat_reply : string :=
  "🐔 For a quick chicken dish: Season chicken breast with salt, pepper, and herbs. Cook in a hot pan with oil for 6-7 minutes per side until golden and cooked through.".

Definition vegetarian_reply : string :=
  "🥗 Try a veggie stir-fry: Heat oil in a wok, add your favorite vegetables, stir-fry for 3-5 minutes, season with soy sauce and garlic. Serve over rice!".

Definition dessert_reply : string :=
  "🍰 Quick dessert idea: Mix 1 mug of flour, sugar, cocoa powder, baking powder, milk, and oil. Microwave for 90 seconds for a mug cake!".

Definition generic_reply : string :=
  "👨‍🍳 I'm a recipe bot! I can help you with cooking ideas, recipes, and meal planning. What would you like to cook today? You can ask me about specific ingredients, dietary preferences, or types of cuisine!".

Definition pasta_words : list string := ["pasta"; "spaghetti"; "noodles"].
Definition meat_words : list string := ["chicken"; "meat"].
Definition vegetarian_words : list string := ["vegetarian"; "vegan"; "vegetables"].
Definition dessert_words : list string := ["dessert"; "sweet"; "cake"].

(** [any(word in user_lower for word in words)] *)
Definition any_word_in (words : list string) (user_lower : string) : bool :=
  existsb (fun word => str_in word user_lower) words.

(** [RecipeBot._get_fallback_response] *)
Definition _get_fallback_response `{!Runtime} (user_message : string) : string :=
  let user_lower := str_lower user_message in
  if any_word_in pasta_words user_lower then pasta_reply
  else if any_word_in meat_words user_lower then meat_reply
  else if any_word_in vegetarian_words user_lower then vegetarian_reply
  else if any_word_in dessert_words user_lower then dessert_reply
  else generic_reply.

(** [RecipeBot._load_system_prompt] *)
Definition _load_system_prompt `{!Runtime}
    (additional_context : option string) : M string :=
  try_except
    (render_template "recipe_bot_prompt.j2" additional_context)
    (fun e =>
       st_warning ("Could not load prompt template: " +:+ str e) ;;
       ret default_system_prompt).

(** [RecipeBot.__init__]; [_load_system_prompt()] is called with the
    default of its parameter, [None]. *)
Definition __init__ `{!Runtime} : M RecipeBot :=
  key <- getenv "OPENAI_API_KEY" ;;
  client <-
    (if truthy key
     then (key <- getenv "OPENAI_API_KEY" ;;
           ret (Some {| openai.api_key := key |}))
     else ret None) ;;
  system_prompt <- _load_system_prompt None ;;
  ret {| client := client; system_prompt := system_prompt |}.

(** The body of the [for] loop and the loop: [messages] is a list made in
    the call and seen by nothing else, so it is kept as a value; each pass
    appends a copy of the turn. *)
Definition copy_turns (messages history : list Turn) : list Turn :=
  foldl
    (fun messages msg =>
       messages ++ [ {| role := role msg; content := content msg |} ])
    messages history.

(** [RecipeBot.get_ai_response] *)
Definition get_ai_response `{!Runtime} (self : RecipeBot)
    (user_message : string) (conversation_history : loc) : M string :=
  match client self with
  | None => ret (_get_fallback_response user_message)
  | Some client =>
      try_except
        (let messages :=
           [ {| role := "system"; content := system_prompt self |} ] in
         history <- read_list conversation_history ;;
         let messages := copy_turns messages history in
         let messages :=
           messages ++ [ {| role := "user"; content := user_message |} ] in
         response <-
           create client
             {| openai.model := "gpt-3.5-turbo";
                openai.messages := messages;
                openai.max_tokens := 500;
                openai.temperature := 0.7 |} ;;
         choice <- first (openai.choices response) ;;
         ret (content (openai.message choice)))
        (fun e =>
           st_error ("Error getting AI response: " +:+ str e) ;;
           ret (_get_fallback_response user_message))
  end.

(** ** The Streamlit script *)

(** Truth value of what [st.chat_input] returns: [None] and the empty
    string are false. *)
Definition submitted (prompt : option string) : option string :=
  match prompt with
  | Some p => if String.eqb p "" then None else Some p
  | None => None
  end.

(** [xs[:-1]] *)
Definition all_but_last {A} (xs : list A) : list A :=
  take (length xs - 1) xs.

(** [main()], one run of the script.  [prompt] is what [st.chat_input]
    returns in this run and [clear_chat_history] what the sidebar button
    returns.  The calls that only draw (title, the replay of the stored
    messages, spinner, sidebar text) are left out. *)
Definition main `{!Runtime} (prompt : option string)
    (clear_chat_history : bool) : M unit :=
  s <- get_session_state ;;
  (match st.bot s with
   | None =>
       b <- __init__ ;;
       s <- get_session_state ;;
       set_session_state {| st.bot := Some b; st.messages := st.messages s |}
   | Some _ => ret tt
   end) ;;
  s <- get_session_state ;;
  (match st.messages s with
   | None =>
       l <- new_list [] ;;
       s <- get_session_state ;;
       set_session_state {| st.bot := st.bot s; st.messages := Some l |}
   | Some _ => ret tt
   end) ;;
  (match submitted prompt with
   | Some prompt =>
       l <- session_messages ;;
       list_append l {| role := "user"; content := prompt |} ;;
       b <- session_bot ;;
       l <- session_messages ;;
       xs <- read_list l ;;
       h <- new_list (all_but_last xs) ;;
       response <- get_ai_response b prompt h ;;
       l <- session_messages ;;
       list_append l {| role := "assistant"; content := response |}
   | None => ret tt
   end) ;;
  if clear_chat_history
  then (l <- new_list [] ;;
        s <- get_session_state ;;
        set_session_state {| st.bot := st.bot s; st.messages := Some l |} ;;
        st_rerun)
  else ret tt.

(** What Streamlit does with one interaction: it runs the script, and when
    the script asks for a rerun it runs it once more with no widget fired. *)
Definition script_run `{!Runtime} (prompt : option string)
    (clear_chat_history : bool) : M unit :=
  fun w =>
    match main prompt clear_chat_history w with
    | (Raise RerunException, w') => main None false w'
    | r => r
    end.

(** ** Runs that Streamlit stops

    Before a [st.*] call draws, Streamlit's script runner looks for a
    pending rerun or stop request and, if there is one, ends the run at
    that call with its script-control exception, which [except Exception]
    does not catch.  The definitions above are the program when no request
    is pending; the ones below are the same source with every [st.*] call
    in its place.  The model has one script-control exception,
    [RerunException], for [st.rerun()], a pending rerun and a pending stop
    alike: each ends the run where it is raised. *)

(** A call site of a [st.*] function: its source line, and the pass of the
    loop around it (0 outside a loop). *)
Definition Site : Type := (nat * nat)%type.

(** The look for a pending request at the call at [line]; [stops] tells at
    which sites of the run a request is pending. *)
Definition st_yield (stops : Site -> bool) (line pass : nat) : M unit :=
  if stops (line, pass) then raise RerunException else ret tt.

Definition never : Site -> bool := fun _ => false.

Definition stop_at (line pass : nat) : Site -> bool :=
  fun site => Nat.eqb site.1 line && Nat.eqb site.2 pass.

(** [RecipeBot._load_system_prompt], with the [st.warning] of line 39. *)
Definition _load_system_prompt_stoppable `{!Runtime} (stops : Site -> bool)
    (additional_context : option string) : M string :=
  try_except
    (render_template "recipe_bot_prompt.j2" additional_context)
    (fun e =>
       st_yield stops 39 0 ;;
       st_warning ("Could not load prompt template: " +:+ str e) ;;
       ret default_system_prompt).

(** [RecipeBot.__init__] *)
Definition init_stoppable `{!Runtime} (stops : Site -> bool) : M RecipeBot :=
  key <- getenv "OPENAI_API_KEY" ;;
  client <-
    (if truthy key
     then (key <- getenv "OPENAI_API_KEY" ;;
           ret (Some {| openai.api_key := key |}))
     else ret None) ;;
  system_prompt <- _load_system_prompt_stoppable stops None ;;
  ret {| client := client; system_prompt := system_prompt |}.

(** [RecipeBot.get_ai_response], with the [st.error] of line 76. *)
Definition get_ai_response_stoppable `{!Runtime} (stops : Site -> bool)
    (self : RecipeBot) (user_message : string) (conversation_history : loc) :
    M string :=
  match client self with
  | None => ret (_get_fallback_response user_message)
  | Some client =>
      try_except
        (let messages :=
           [ {| role := "system"; content := system_prompt self |} ] in
         history <- read_list conversation_history ;;
         let messages := copy_turns messages history in
         let messages :=
           messages ++ [ {| role := "user"; content := user_message |} ] in
         response <-
           create client
             {| openai.model := "gpt-3.5-turbo";
                openai.messages := messages;
                openai.max_tokens := 500;
                openai.temperature := 0.7 |} ;;
         choice <- first (openai.choices response) ;;
         ret (content (openai.message choice)))
        (fun e =>
           st_yield stops 76 0 ;;
           st_error ("Error getting AI response: " +:+ str e) ;;
           ret (_get_fallback_response user_message))
  end.

(** The replay of the stored messages, lines 113 to 115: one
    [st.chat_message] and one [st.write] for each. *)
Fixpoint replay_stoppable (stops : Site -> bool) (messages : list Turn)
    (pass : nat) : M unit :=
  match messages with
  | [] => ret tt
  | _ :: messages' =>
      st_yield stops 114 pass ;;
      st_yield stops 115 pass ;;
      replay_stoppable stops messages' (S pass)
  end.

(** [main()], one run of the script, with its [st.*] calls: the title and
    the introduction (109, 110), the replay (114, 115), the chat input
    (118), the echo of the prompt (123, 124), the assistant's container and
    the spinner (127, 128), the reply (133), the sidebar (140 to 146). *)
Definition main_stoppable `{!Runtime} (stops : Site -> bool)
    (prompt : option string) (clear_chat_history : bool) : M unit :=
  s <- get_session_state ;;
  (match st.bot s with
   | None =>
       b <- init_stoppable stops ;;
       s <- get_session_state ;;
       set_session_state {| st.bot := Some b; st.messages := st.messages s |}
   | Some _ => ret tt
   end) ;;
  s <- get_session_state ;;
  (match st.messages s with
   | None =>
       l <- new_list [] ;;
       s <- get_session_state ;;
       set_session_state {| st.bot := st.bot s; st.messages := Some l |}
   | Some _ => ret tt
   end) ;;
  (st_yield stops 109 0 ;;
   st_yield stops 110 0 ;;
   l <- session_messages ;;
   xs <- read_list l ;;
   replay_stoppable stops xs 0 ;;
   st_yield stops 118 0) ;;
  (match submitted prompt with
   | Some prompt =>
       l <- session_messages ;;
       list_append l {| role := "user"; content := prompt |} ;;
       st_yield stops 123 0 ;;
       st_yield stops 124 0 ;;
       st_yield stops 127 0 ;;
       st_yield stops 128 0 ;;
       b <- session_bot ;;
       l <- session_messages ;;
       xs <- read_list l ;;
       h <- new_list (all_but_last xs) ;;
       response <- get_ai_response_stoppable stops b prompt h ;;
       st_yield stops 133 0 ;;
       l <- session_messages ;;
       list_append l {| role := "assistant"; content := response |}
   | None => ret tt
   end) ;;
  (st_yield stops 140 0 ;;
   st_yield stops 141 0 ;;
   st_yield stops 142 0 ;;
   st_yield stops 143 0 ;;
   st_yield stops 144 0 ;;
   st_yield stops 146 0) ;;
  if clear_chat_history
  then (l <- new_list [] ;;
        s <- get_session_state ;;
        set_session_state {| st.bot := st.bot s; st.messages := Some l |} ;;
        st_rerun)
  else ret tt.

(** ** The chat surface as a transition system *)

(** Between two runs of the script the environment of the process may
    change; nothing else touches the world. *)
Definition set_environ (env : gmap string string) (w : World) : World :=
  {| environ := env; heap := heap w;
     session_state := session_state w; events := events w |}.

(** The session moves by an interaction that runs to its end, by a run
    that Streamlit stops at one of its [st.*] calls (or that ends at
    [st.rerun()], seen before the rerun), or by a change of the
    environment. *)
Inductive step `{!Runtime} : World -> World -> Prop :=
  | step_interaction (prompt : option string) (clear_chat_history : bool) w :
      step w (script_run prompt clear_chat_history w).2
  | step_environ (env : gmap string string) w :
      step w (set_environ env w)
  | step_stopped (stops : Site -> bool) (prompt : option string)
      (clear_chat_history : bool) w :
      step w (main_stoppable stops prompt clear_chat_history w).2.

(** The moves of a session in which Streamlit stops no run. *)
Inductive whole_step `{!Runtime} : World -> World -> Prop :=
  | whole_interaction (prompt : option string) (clear_chat_history : bool) w :
      whole_step w (script_run prompt clear_chat_history w).2
  | whole_environ (env : gmap string string) w :
      whole_step w (set_environ env w).

(** A new session: nothing in [st.session_state], no list made yet, nothing
    done yet; the environment is whatever the process was started with. *)
Definition initial (w : World) : Prop :=
  session_state w = {| st.bot := None; st.messages := None |}
  /\ heap w = ∅
  /\ events w = [].

Definition reachable `{!Runtime} (w : World) : Prop :=
  exists w0, initial w0 /\ rtc step w0 w.

Definition reachable_unstopped `{!Runtime} (w : World) : Prop :=
  exists w0, initial w0 /\ rtc whole_step w0 w.

(** [st.session_state.messages] as a value: the turns of the list it names,
    and the empty list before the key is set. *)
Definition history (w : World) : list Turn :=
  match st.messages (session_state w) with
  | Some l => default [] (heap w !! l)
  | None => []
  end.

(** ** Sample runtimes

    Used to run the definitions on concrete inputs. *)

(** No template in the working directory and no service to reach. *)
Definition offline : Runtime :=
  {| str_lower := ascii_lower;
     jinja2_render := fun _ name _ => Fails name;
     chat_completions_create := fun _ _ _ => Fails "Connection error." |}.

(** A template that renders to a fixed text and a service that answers
    every request with one completion. *)
Definition online : Runtime :=
  {| str_lower := ascii_lower;
     jinja2_render := fun _ _ _ => Returns "You are a recipe bot.";
     chat_completions_create := fun _ _ _ =>
       Returns {| openai.choices :=
                [ {| openai.message :=
                       {| role := "assistant"; content := "Try carbonara." |} |} ] |} |}.

Definition new_session (env : gmap string string) : World :=
  {| environ := env; heap := ∅;
     session_state := {| st.bot := None; st.messages := None |};
     events := [] |}.

Definition sample_environ : gmap string string :=
  {[ "OPENAI_API_KEY" := "sk-test" ]}.

Definition sample_client : openai.OpenAI :=
  {| openai.api_key := Some "sk-test" |}.

Definition sample_bot : RecipeBot :=
  {| client := Some sample_client; system_prompt := "You are a recipe bot." |}.

Definition sample_history : list Turn :=
  [ {| role := "user"; content := "Something with noodles?" |};
    {| role := "assistant"; content := "Try carbonara." |} ].

(** A world in which the list object at location 1 holds [sample_history]. *)
Definition sample_world : World :=
  {| environ := sample_environ; heap := {[ 1%positive := sample_history ]};
     session_state := {| st.bot := None; st.messages := None |};
     events := [] |}.

(** The bot of a session started without credential and without template. *)
Definition fallback_bot : RecipeBot :=
  {| client := None; system_prompt := default_system_prompt |}.

(** Two sessions after their first interaction: one with a credential, a
    template and a service that answers, one with none of them. *)
Definition online_session : World :=
  (@script_run online (Some "Something with noodles?") false
     (new_session sample_environ)).2.

Definition offline_session : World :=
  (@script_run offline (Some "any cake ideas?") false (new_session ∅)).2.

(** A session whose first run Streamlit stops at the [st.write] of the
    reply (line 133), and the same session after the next prompt. *)
Definition left_unanswered : World :=
  (@main_stoppable offline (stop_at 133 0) (Some "pasta tonight?") false
     (new_session ∅)).2.

Definition asked_again : World :=
  (@script_run offline (Some "or a cake?") false left_unanswered).2.

(** A session whose first run Streamlit stops at the [st.warning] of the
    constructor (line 39). *)
Definition construction_stopped : World :=
  (@main_stoppable offline (stop_at 39 0) None false (new_session ∅)).2.

(** ** The specification's vocabulary *)

(** [word] occurs in [s] as a contiguous substring. *)
Definition substring_of (word s : string) : Prop :=
  exists before after, s = before +:+ word +:+ after.

(** A keyword set matches an utterance when one of its words occurs in the
    lowercased utterance. *)
Definition matches `{!Runtime} (words : list string) (utterance : string) : Prop :=
  exists word, word ∈ words /\ substring_of word (str_lower utterance).

(** The whitespace-separated words of [s], as [s.split(' ')] gives them;
    used only to tell substring containment from whole-word membership. *)
Fixpoint whole_words_from (word : string) (s : string) : list string :=
  match s with
  | EmptyString => [String.rev word]
  | String c s' =>
      if Ascii.eqb c " " then String.rev word :: whole_words_from "" s'
      else whole_words_from (String c word) s'
  end.

Definition whole_words (s : string) : list string := whole_words_from "" s.

(** The four keyword sets with their replies, in priority order. *)
Definition priority : list (list string * string) :=
  [ (pasta_words, pasta_reply); (meat_words, meat_reply);
    (vegetarian_words, vegetarian_reply); (dessert_words, dessert_reply) ].

(** The request the specification describes: the system turn, the history,
    the user turn, and the fixed parameters. *)
Definition spec_request (system_prompt : string) (history : list Turn)
    (user_message : string) : openai.Request :=
  {| openai.model := "gpt-3.5-turbo";
     openai.messages :=
       [ {| role := "system"; content := system_prompt |} ]
       ++ history
       ++ [ {| role := "user"; content := user_message |} ];
     openai.max_tokens := 500;
     openai.temperature := 7 # 10 |}.

(** A backend call has failed when the service raised, or answered with
    no completion at all (a malformed response: [choices[0]] raises
    [IndexError]); the text is the [str()] of the exception. *)
Definition backend_failure (r : reply openai.Response) : option string :=
  match r with
  | Fails msg => Some msg
  | Returns response =>
      match openai.choices response with
      | [] => Some "list index out of range"
      | _ :: _ => None
      end
  end.

(** Roles go user, assistant, user, assistant, ... from the first turn on. *)
Fixpoint alternating_from (user_next : bool) (turns : list Turn) : bool :=
  match turns with
  | [] => true
  | t :: turns' =>
      String.eqb (role t) (if user_next then "user" else "assistant")
      && alternating_from (negb user_next) turns'
  end.

Definition alternating (turns : list Turn) : bool := alternating_from true turns.

(** The history is a sequence of exchanges: it alternates from a user turn
    and ends with an assistant turn. *)
Definition exchanges (turns : list Turn) : bool :=
  alternating turns && Nat.even (length turns).

(** The events of [w'] that were not yet in [w]. *)
Definition new_events (w w' : World) : list Event :=
  drop (length (events w)) (events w').

Definition is_backend_call (ev : Event) : bool :=
  match ev with
  | ChatCompletionsCreate _ _ => true
  | _ => false
  end.

Definition is_template_load (ev : Event) : bool :=
  match ev with
  | GetTemplate _ _ => true
  | _ => false
  end.

(** What [get_ai_response] returns with a client, given what the service
    came back with: the text of the first completion, or the fallback
    reply when the call has failed. *)
Definition completion_or_fallback `{!Runtime} (user_message : string)
    (r : reply openai.Response) : string :=
  match r with
  | Returns response =>
      match openai.choices response with
      | choice :: _ => content (openai.message choice)
      | [] => _get_fallback_response user_message
      end
  | Fails _ => _get_fallback_response user_message
  end.

(** The [st.error] notice of a failed call, if the call has failed. *)
Definition failure_notice (r : reply openai.Response) : list Event :=
  match backend_failure r with
  | Some msg => [StError ("Error getting AI response: " +:+ msg)]
  | None => []
  end.

(** The history of a session that answers every prompt from the fallback
    responder. *)
Definition fallback_transcript `{!Runtime} (prompts : list string) : list Turn :=
  flat_map
    (fun p => [ {| role := "user"; content := p |};
                {| role := "assistant"; content := _get_fallback_response p |} ])
    prompts.

(** The history of a session that answers from the fallback responder and
    in which a prompt may have been left without its reply. *)
Definition fallback_dialogue `{!Runtime} (asked : list (string * bool)) : list Turn :=
  flat_map
    (fun a : string * bool =>
       {| role := "user"; content := fst a |}
       :: (if snd a
           then [ {| role := "assistant";
                     content := _get_fallback_response (fst a) |} ]
           else []))
    asked.

(** [s] holds ASCII characters only. *)
Fixpoint is_ascii (s : string) : bool :=
  match s with
  | EmptyString => true
  | String c s' => (N_of_ascii c <? 128)%N && is_ascii s'
  end.

(** The template loads and the backend calls among some events. *)
Definition template_loads (evs : list Event) : list Event :=
  List.filter is_template_load evs.

Definition backend_calls (evs : list Event) : list Event :=
  List.filter is_backend_call evs.

(** ** The script, block by block *)

(** The four blocks of [main], in the order of the source: the bot is made
    if the session has none, the history is made if the session has none,
    a submitted prompt is answered, the sidebar button clears. *)
Definition ensure_bot `{!Runtime} : M unit :=
  s <- get_session_state ;;
  match st.bot s with
  | None =>
      b <- __init__ ;;
      s <- get_session_state ;;
      set_session_state {| st.bot := Some b; st.messages := st.messages s |}
  | Some _ => ret tt
  end.

Definition ensure_messages : M unit :=
  s <- get_session_state ;;
  match st.messages s with
  | None =>
      l <- new_list [] ;;
      s <- get_session_state ;;
      set_session_state {| st.bot := st.bot s; st.messages := Some l |}
  | Some _ => ret tt
  end.

Definition chat_block `{!Runtime} (prompt : option string) : M unit :=
  match submitted prompt with
  | Some prompt =>
      l <- session_messages ;;
      list_append l {| role := "user"; content := prompt |} ;;
      b <- session_bot ;;
      l <- session_messages ;;
      xs <- read_list l ;;
      h <- new_list (all_but_last xs) ;;
      response <- get_ai_response b prompt h ;;
      l <- session_messages ;;
      list_append l {| role := "assistant"; content := response |}
  | None => ret tt
  end.

Definition sidebar_block (clear_chat_history : bool) : M unit :=
  if clear_chat_history
  then (l <- new_list [] ;;
        s <- get_session_state ;;
        set_session_state {| st.bot := st.bot s; st.messages := Some l |} ;;
        st_rerun)
  else ret tt.

(** The session is ready when it has a bot and a history list that exists. *)
Definition ready (b : RecipeBot) (l : loc) (turns : list Turn) (w : World) : Prop :=
  session_state w = {| st.bot := Some b; st.messages := Some l |}
  /\ heap w !! l = Some turns.

(** No stored name of the history dangles. *)
Definition well_formed (w : World) : Prop :=
  forall l, st.messages (session_state w) = Some l -> is_Some (heap w !! l).

(** Every template load so far was made without additional context. *)
Definition loads_without_context (evs : list Event) : Prop :=
  Forall (fun ev => forall name ctx, ev = GetTemplate name ctx -> ctx = None) evs.

(** Every assistant turn comes right after a user turn, and no other role
    occurs: the history is made of prompts, each with at most one reply. *)
Fixpoint prompted_from (after_user : bool) (turns : list Turn) : bool :=
  match turns with
  | [] => true
  | t :: turns' =>
      if String.eqb (role t) "user" then prompted_from true turns'
      else String.eqb (role t) "assistant" && after_user
           && prompted_from false turns'
  end.

Definition prompted (turns : list Turn) : bool := prompted_from false turns.

(** What holds of the world in every state of a session. *)
Definition invariant (w : World) : Prop :=
  well_formed w
  /\ loads_without_context (events w)
  /\ prompted (history w) = true.

(** The blocks of [main_stoppable]: those of [main], with the [st.*] calls
    between them. *)
Definition ensure_bot_stoppable `{!Runtime} (stops : Site -> bool) : M unit :=
  s <- get_session_state ;;
  match st.bot s with
  | None =>
      b <- init_stoppable stops ;;
      s <- get_session_state ;;
      set_session_state {| st.bot := Some b; st.messages := st.messages s |}
  | Some _ => ret tt
  end.

Definition header_stoppable (stops : Site -> bool) : M unit :=
  st_yield stops 109 0 ;;
  st_yield stops 110 0 ;;
  l <- session_messages ;;
  xs <- read_list l ;;
  replay_stoppable stops xs 0 ;;
  st_yield stops 118 0.

Definition chat_block_stoppable `{!Runtime} (stops : Site -> bool)
    (prompt : option string) : M unit :=
  match submitted prompt with
  | Some prompt =>
      l <- session_messages ;;
      list_append l {| role := "user"; content := prompt |} ;;
      st_yield stops 123 0 ;;
      st_yield stops 124 0 ;;
      st_yield stops 127 0 ;;
      st_yield stops 128 0 ;;
      b <- session_bot ;;
      l <- session_messages ;;
      xs <- read_list l ;;
      h <- new_list (all_but_last xs) ;;
      response <- get_ai_response_stoppable stops b prompt h ;;
      st_yield stops 133 0 ;;
      l <- session_messages ;;
      list_append l {| role := "assistant"; content := response |}
  | None => ret tt
  end.

Definition sidebar_draws (stops : Site -> bool) : M unit :=
  st_yield stops 140 0 ;;
  st_yield stops 141 0 ;;
  st_yield stops 142 0 ;;
  st_yield stops 143 0 ;;
  st_yield stops 144 0 ;;
  st_yield stops 146 0.

(** A computation that, in [w], only looks for a pending request: it ends
    normally or stops the run, and leaves [w] as it is. *)
Definition quiet (m : M unit) (w : World) : Prop :=
  m w = (Val tt, w) \/ m w = (Raise RerunException, w).

(** The run was stopped after the prompt was stored and before its reply
    was: [w'] is the session as the first two blocks leave it, with the
    user turn added and, at most, the events of the bot's call. *)
Definition unanswered `{!Runtime} (prompt : option string) (w w' : World) : Prop :=
  exists p b l evs,
    submitted prompt = Some p
    /\ ready b l (history w) (script_run None false w).2
    /\ ready b l (history w ++ [ {| role := "user"; content := p |} ]) w'
    /\ environ w' = environ w
    /\ events w' = events (script_run None false w).2 ++ evs
    /\ Forall (fun ev => is_template_load ev = false) evs
    /\ (client b = None -> evs = []).

(** * Properties *)

(** ** Strings *)

Lemma append_String (c : ascii) (s1 s2 : string) :
  String c s1 +:+ s2 = String c (s1 +:+ s2).
Proof. reflexivity. Qed.

Lemma prefix_true_iff (word s : string) :
  String.prefix word s = true <-> exists after, s = word +:+ after.
Proof.
  revert s. induction word as [|c word IH]; intros s; simpl.
  - split; [intros _; by exists s | by destruct s].
  - destruct s as [|c' s]; simpl.
    + split; [done | by intros [after ?]].
    + setoid_rewrite append_String.
      destruct (Ascii.ascii_dec c c') as [->|Hne].
      * rewrite IH. split; intros [after Hs]; exists after; congruence.
      * split; [done | intros [after ?]; congruence].
Qed.

Lemma str_in_empty (word : string) : str_in word "" = String.prefix word "".
Proof. simpl. apply orb_false_r. Qed.

Lemma str_in_String (word : string) (c : ascii) (s : string) :
  str_in word (String c s) = String.prefix word (String c s) || str_in word s.
Proof. reflexivity. Qed.

Lemma str_in_true_iff (word s : string) :
  str_in word s = true <-> substring_of word s.
Proof.
  unfold substring_of. induction s as [|c s IH].
  - rewrite str_in_empty, prefix_true_iff. split.
    + intros [after Hs]. by exists "", after.
    + intros [[|? before] [after Hs]]; [by exists after | done].
  - rewrite str_in_String, orb_true_iff, prefix_true_iff, IH. split.
    + intros [[after Hs] | (before & after & Hs)].
      * by exists "", after.
      * exists (String c before), after. by rewrite append_String, Hs.
    + intros [[|c' before] [after Hs]].
      * left. by exists after.
      * right. exists before, after. rewrite append_String in Hs. congruence.
Qed.

Section Fallback.
Context `{!Runtime}.

Lemma any_word_in_true_iff (words : list string) (utterance : string) :
  any_word_in words (str_lower utterance) = true <-> matches words utterance.
Proof.
  unfold any_word_in, matches. rewrite existsb_exists. split.
  - intros (word & Hin & Hsub). exists word.
    by rewrite list_elem_of_In, <- str_in_true_iff.
  - intros (word & Hin & Hsub). exists word.
    by rewrite <- list_elem_of_In, str_in_true_iff.
Qed.

Lemma any_word_in_false_iff (words : list string) (utterance : string) :
  any_word_in words (str_lower utterance) = false <-> ~ matches words utterance.
Proof. rewrite <- any_word_in_true_iff. by destruct (any_word_in _ _). Qed.

End Fallback.

(** ** The fallback responder *)

Section FallbackResponder.
Context `{!Runtime}.

#[local] Arguments any_word_in : simpl never.

(** C4. Whenever an utterance matches a keyword set and none of the sets
    before it in the order pasta, meat, vegetarian, dessert, the reply is
    that set's canned reply, whatever later sets match as well; an
    utterance that matches none of the four sets gets the generic reply.
    The five replies are pairwise different. *)
Theorem fallback_earliest_match_wins (utterance : string) :
  (forall earlier words canned later,
      priority = earlier ++ (words, canned) :: later ->
      Forall (fun entry => ~ matches entry.1 utterance) earlier ->
      matches words utterance ->
      _get_fallback_response utterance = canned)
  /\ (Forall (fun entry => ~ matches entry.1 utterance) priority ->
      _get_fallback_response utterance = generic_reply)
  /\ NoDup [pasta_reply; meat_reply; vegetarian_reply; dessert_reply;
            generic_reply].
Proof.
  split; [| split].
  - intros earlier words canned later Hsplit Hnone Hmatch.
    setoid_rewrite <- any_word_in_false_iff in Hnone.
    apply any_word_in_true_iff in Hmatch.
    unfold _get_fallback_response, priority in *.
    destruct earlier as [|e1 [|e2 [|e3 [|e4 earlier]]]];
      simplify_eq/=; decompose_Forall_hyps.
    all: try by destruct earlier.
    all: repeat match goal with
                | Hw : any_word_in _ _ = _ |- _ => rewrite Hw; clear Hw
                end; done.
  - intros Hnone. setoid_rewrite <- any_word_in_false_iff in Hnone.
    unfold _get_fallback_response, priority in *.
    decompose_Forall_hyps.
    repeat match goal with
           | Hw : any_word_in _ _ = _ |- _ => rewrite Hw; clear Hw
           end; done.
  - apply (bool_decide_unpack _). by vm_compute.
Qed.

(** C8. A keyword set matches exactly when one of its words occurs in the
    lowercased utterance as a contiguous substring; so a lowercased
    utterance containing "meatless" matches the meat set and one
    containing "sweetcorn" matches the dessert set, although neither
    keyword is one of its whitespace-separated words. *)
Theorem keyword_match_is_substring_containment :
  (forall words utterance,
      any_word_in words (str_lower utterance) = true <->
      exists word before after,
        word ∈ words /\ str_lower utterance = before +:+ word +:+ after)
  /\ (forall utterance,
        substring_of "meatless" (str_lower utterance) ->
        any_word_in meat_words (str_lower utterance) = true)
  /\ (forall utterance,
        substring_of "sweetcorn" (str_lower utterance) ->
        any_word_in dessert_words (str_lower utterance) = true)
  /\ (("meat" ∉ whole_words "any meatless ideas?")
      /\ @_get_fallback_response offline "Any meatless ideas?" = meat_reply)
  /\ (("sweet" ∉ whole_words "sweetcorn fritters")
      /\ @_get_fallback_response offline "Sweetcorn fritters" = dessert_reply).
Proof.
  split; [| split; [| split; [| split]]].
  - intros words utterance. rewrite any_word_in_true_iff.
    unfold matches, substring_of. split.
    + intros (word & Hin & before & after & Hs). by exists word, before, after.
    + intros (word & before & after & Hin & Hs). exists word. eauto.
  - intros utterance (before & after & Hs).
    apply any_word_in_true_iff. exists "meat". split.
    + unfold meat_words. set_solver.
    + exists before, ("less" +:+ after). by rewrite Hs.
  - intros utterance (before & after & Hs).
    apply any_word_in_true_iff. exists "sweet". split.
    + unfold dessert_words. set_solver.
    + exists before, ("corn" +:+ after). by rewrite Hs.
  - split; [| by vm_compute]. apply (bool_decide_unpack _). by vm_compute.
  - split; [| by vm_compute]. apply (bool_decide_unpack _). by vm_compute.
Qed.

End FallbackResponder.

(** ** The orchestrator *)

Lemma copy_turns_app (messages history : list Turn) :
  copy_turns messages history = messages ++ history.
Proof.
  unfold copy_turns. revert messages.
  induction history as [|[r c] history IH]; intros messages; simpl.
  - by rewrite app_nil_r.
  - by rewrite IH, <- app_assoc.
Qed.

Section Orchestrator.
Context `{!Runtime}.

(** The three ways a call of [get_ai_response] can go. *)

Lemma get_ai_response_no_client self user_message conversation_history w :
  client self = None ->
  get_ai_response self user_message conversation_history w
  = (Val (_get_fallback_response user_message), w).
Proof. intros Hc. unfold get_ai_response. by rewrite Hc. Qed.

Lemma get_ai_response_dangling self c user_message conversation_history w :
  client self = Some c ->
  heap w !! conversation_history = None ->
  get_ai_response self user_message conversation_history w
  = (Val (_get_fallback_response user_message),
     add_event (StError ("Error getting AI response: " +:+ "dangling reference")) w).
Proof.
  intros Hc Hh. unfold get_ai_response, try_except, bind, read_list.
  by rewrite Hc, Hh.
Qed.

Lemma get_ai_response_client self c user_message conversation_history w history :
  client self = Some c ->
  heap w !! conversation_history = Some history ->
  let request := spec_request (system_prompt self) history user_message in
  let called := add_event (ChatCompletionsCreate c request) w in
  get_ai_response self user_message conversation_history w
  = match chat_completions_create (events w) c request with
    | Returns response =>
        match openai.choices response with
        | choice :: _ => (Val (content (openai.message choice)), called)
        | [] =>
            (Val (_get_fallback_response user_message),
             add_event
               (StError ("Error getting AI response: " +:+ "list index out of range"))
               called)
        end
    | Fails msg =>
        (Val (_get_fallback_response user_message),
         add_event (StError ("Error getting AI response: " +:+ msg)) called)
    end.
Proof.
  intros Hc Hh request called.
  unfold get_ai_response, try_except, bind, read_list, create.
  rewrite Hc, Hh, copy_turns_app.
  change (openai.Build_Request _ _ _ _) with request.
  destruct (chat_completions_create (events w) c request) as [response|msg];
    [| done].
  simpl. by destruct (openai.choices response).
Qed.

(** Whatever way it goes, the call ends with a value, and all it does to
    the world is to add events, none of them a template load. *)
Lemma get_ai_response_total self user_message conversation_history w :
  exists text new,
    get_ai_response self user_message conversation_history w
    = (Val text,
       {| environ := environ w; heap := heap w;
          session_state := session_state w; events := events w ++ new |})
    /\ Forall (fun ev => is_template_load ev = false) new.
Proof.
  destruct (client self) as [c|] eqn:Hc.
  - destruct (heap w !! conversation_history) as [history|] eqn:Hh.
    + rewrite (get_ai_response_client _ _ _ _ _ _ Hc Hh).
      destruct (chat_completions_create _ _ _) as [[[|choice rest]]|msg];
        simpl; eexists _, _; unfold add_event; simpl;
        rewrite <- ?app_assoc; split; try reflexivity;
        repeat constructor.
    + rewrite (get_ai_response_dangling _ _ _ _ _ Hc Hh).
      eexists _, _. unfold add_event. split; [reflexivity |].
      repeat constructor.
  - rewrite (get_ai_response_no_client _ _ _ _ Hc).
    exists (_get_fallback_response user_message), [].
    rewrite app_nil_r. by destruct w.
Qed.

Lemma load_system_prompt_eq additional_context w :
  let loaded := add_event (GetTemplate "recipe_bot_prompt.j2" additional_context) w in
  _load_system_prompt additional_context w
  = match jinja2_render (events w) "recipe_bot_prompt.j2" additional_context with
    | Returns text => (Val text, loaded)
    | Fails msg =>
        (Val default_system_prompt,
         add_event (StWarning ("Could not load prompt template: " +:+ msg)) loaded)
    end.
Proof.
  unfold _load_system_prompt, try_except, render_template.
  by destruct (jinja2_render _ _ _).
Qed.

(** The constructor ends with a bot; its client is there exactly when the
    environment variable is set to a non-empty string.  It loads the
    template once, without additional context. *)
Lemma init_eq w :
  exists prompt warning,
    __init__ w
    = (Val {| client :=
                if truthy (environ w !! "OPENAI_API_KEY")
                then Some {| openai.api_key := environ w !! "OPENAI_API_KEY" |}
                else None;
              system_prompt := prompt |},
       {| environ := environ w; heap := heap w;
          session_state := session_state w;
          events :=
            events w ++ GetTemplate "recipe_bot_prompt.j2" None :: warning |})
    /\ Forall (fun ev => exists body, ev = StWarning body) warning.
Proof.
  unfold __init__, bind, getenv.
  destruct (truthy (environ w !! "OPENAI_API_KEY")); simpl;
    rewrite load_system_prompt_eq;
    destruct (jinja2_render _ _ _); simpl;
    eexists _, _; unfold add_event; simpl; rewrite <- ?app_assoc;
    (split; [reflexivity |]); repeat constructor; by eexists.
Qed.

(** C1. A bot constructed while the environment holds no credential has
    no client, and every call of [get_ai_response] on it, for every
    message, history and world, returns the fallback reply for the message
    and leaves the world as it was: no event, so no backend call. *)
Theorem no_credential_answers_from_fallback (w0 : World) :
  truthy (environ w0 !! "OPENAI_API_KEY") = false ->
  exists self w1,
    __init__ w0 = (Val self, w1)
    /\ client self = None
    /\ forall user_message conversation_history w,
         get_ai_response self user_message conversation_history w
         = (Val (_get_fallback_response user_message), w).
Proof.
  intros Hkey. destruct (init_eq w0) as (prompt & warning & Hinit & _).
  rewrite Hkey in Hinit. eexists _, _. split; [exact Hinit |].
  split; [done |]. intros. by apply get_ai_response_no_client.
Qed.

(** C2. With a client, when the backend call fails, whatever the failure,
    [get_ai_response] ends with a value, the fallback reply for the
    message, which is what the same call returns without a client; the
    events it adds are the one backend call and then one [st.error]
    notice carrying the failure. *)
Theorem backend_failure_answers_from_fallback
    self c user_message conversation_history w history msg :
  client self = Some c ->
  heap w !! conversation_history = Some history ->
  backend_failure
    (chat_completions_create (events w) c
       (spec_request (system_prompt self) history user_message))
  = Some msg ->
  get_ai_response self user_message conversation_history w
  = (Val (_get_fallback_response user_message),
     add_event (StError ("Error getting AI response: " +:+ msg))
       (add_event
          (ChatCompletionsCreate c
             (spec_request (system_prompt self) history user_message)) w))
  /\ get_ai_response {| client := None; system_prompt := system_prompt self |}
       user_message conversation_history w
     = (Val (_get_fallback_response user_message), w).
Proof.
  intros Hc Hh Hfail. split; [| by apply get_ai_response_no_client].
  rewrite (get_ai_response_client _ _ _ _ _ _ Hc Hh). simpl.
  destruct (chat_completions_create _ _ _) as [[[|choice rest]]|msg'];
    simpl in Hfail; by simplify_eq.
Qed.

(** C3. With a client, the call sends the backend exactly one request: the
    system turn with the stored prompt, then the history as it is, then
    the user turn with the message, with [max_tokens = 500] and
    [temperature = 0.7]; when the backend answers with a completion, its
    text is returned as it is and nothing else happens. *)
Theorem backend_request_and_success
    self c user_message conversation_history w history :
  client self = Some c ->
  heap w !! conversation_history = Some history ->
  exists request,
    openai.messages request
    = [ {| role := "system"; content := system_prompt self |} ]
      ++ history ++ [ {| role := "user"; content := user_message |} ]
    /\ openai.max_tokens request = 500%Z
    /\ openai.temperature request = (7 # 10)%Q
    /\ openai.model request = "gpt-3.5-turbo"
    /\ (exists after,
          events (get_ai_response self user_message conversation_history w).2
          = events w ++ ChatCompletionsCreate c request :: after
          /\ Forall (fun ev => is_backend_call ev = false) after)
    /\ (forall choice rest,
          chat_completions_create (events w) c request
          = Returns {| openai.choices := choice :: rest |} ->
          get_ai_response self user_message conversation_history w
          = (Val (content (openai.message choice)),
             add_event (ChatCompletionsCreate c request) w)).
Proof.
  intros Hc Hh.
  exists (spec_request (system_prompt self) history user_message).
  do 4 (split; [reflexivity |]).
  rewrite (get_ai_response_client _ _ _ _ _ _ Hc Hh). simpl. split.
  - destruct (chat_completions_create _ _ _) as [[[|choice rest]]|msg];
      simpl; rewrite <- ?app_assoc; eexists; (split; [reflexivity |]);
      repeat constructor.
  - intros choice rest Hok. by rewrite Hok.
Qed.

(** C5. On every path, a call of [get_ai_response] leaves the list it was
    given, and every other list object, as it was, and does not touch
    [st.session_state]: the stored history has the same turns in the same
    order after the call. *)
Theorem get_ai_response_leaves_history
    self user_message conversation_history w :
  heap (get_ai_response self user_message conversation_history w).2
    !! conversation_history
  = heap w !! conversation_history
  /\ heap (get_ai_response self user_message conversation_history w).2 = heap w
  /\ session_state (get_ai_response self user_message conversation_history w).2
     = session_state w
  /\ history (get_ai_response self user_message conversation_history w).2
     = history w.
Proof.
  destruct (get_ai_response_total self user_message conversation_history w)
    as (text & new & -> & _).
  done.
Qed.

(** C6. When the template cannot be loaded or rendered,
    [_load_system_prompt] raises nothing: it returns the built-in default
    prompt, after one [st.warning] carrying the failure. *)
Theorem load_system_prompt_failure_defaults additional_context w msg :
  jinja2_render (events w) "recipe_bot_prompt.j2" additional_context = Fails msg ->
  _load_system_prompt additional_context w
  = (Val default_system_prompt,
     add_event (StWarning ("Could not load prompt template: " +:+ msg))
       (add_event (GetTemplate "recipe_bot_prompt.j2" additional_context) w))
  /\ substring_of "You are a helpful recipe bot assistant" default_system_prompt.
Proof.
  intros Hfail. rewrite load_system_prompt_eq. simpl. rewrite Hfail.
  split; [done |]. apply str_in_true_iff. by vm_compute.
Qed.

End Orchestrator.

(** ** The script *)

Lemma main_blocks `{!Runtime} prompt clear_chat_history :
  main prompt clear_chat_history
  = (ensure_bot ;; ensure_messages ;; chat_block prompt ;;
     sidebar_block clear_chat_history).
Proof. reflexivity. Qed.

Lemma bind_val {A B} (m : M A) (k : A -> M B) w a w' :
  m w = (Val a, w') -> bind m k w = k a w'.
Proof. intros Hm. unfold bind. by rewrite Hm. Qed.

Lemma all_but_last_snoc {A} (xs : list A) (x : A) : all_but_last (xs ++ [x]) = xs.
Proof.
  unfold all_but_last. rewrite length_app. simpl.
  replace (length xs + 1 - 1) with (length xs) by lia.
  by rewrite take_app_length.
Qed.

Lemma history_ready b l turns w : ready b l turns w -> history w = turns.
Proof. intros [Hs Hl]. unfold history. rewrite Hs. simpl. by rewrite Hl. Qed.

Lemma ready_well_formed b l turns w : ready b l turns w -> well_formed w.
Proof. intros [Hs Hl] l' Hl'. rewrite Hs in Hl'. by simplify_eq/=. Qed.

Lemma warnings_load_nothing (warning : list Event) :
  Forall (fun ev => exists body, ev = StWarning body) warning ->
  loads_without_context warning
  /\ Forall (fun ev => is_backend_call ev = false) warning.
Proof.
  intros Hw. split; (eapply Forall_impl; [exact Hw |]); simpl.
  - intros ev [body ->] name ctx Hev. done.
  - by intros ev [body ->].
Qed.

Lemma not_template_load_without_context (new : list Event) :
  Forall (fun ev => is_template_load ev = false) new -> loads_without_context new.
Proof.
  intros Hn. eapply Forall_impl; [exact Hn |]. simpl.
  by intros ev Hev name ctx ->.
Qed.

Section Script.
Context `{!Runtime}.

(** After the first two blocks the session is ready, with the bot it had
    if it had one and the history it had. *)
Lemma prepare_spec w :
  well_formed w ->
  exists b l new w',
    (ensure_bot ;; ensure_messages) w = (Val tt, w')
    /\ ready b l (history w) w'
    /\ (forall b', st.bot (session_state w) = Some b' -> b' = b)
    /\ (st.bot (session_state w) = None ->
        client b
        = if truthy (environ w !! "OPENAI_API_KEY")
          then Some {| openai.api_key := environ w !! "OPENAI_API_KEY" |}
          else None)
    /\ environ w' = environ w
    /\ events w' = events w ++ new
    /\ loads_without_context new.
Proof.
  intros Hwf. unfold ensure_bot, ensure_messages, bind, get_session_state.
  unfold history, well_formed in *.
  destruct w as [env hp [sb sm] evs]; simpl in *.
  destruct sb as [b|]; simpl.
  - destruct sm as [l|]; simpl.
    + destruct (Hwf l eq_refl) as [turns Hl].
      eexists b, l, [], _. split; [reflexivity |].
      rewrite Hl, app_nil_r. repeat split; try done; [congruence | constructor].
    + eexists b, (fresh (dom hp)), [], _. split; [reflexivity |].
      rewrite app_nil_r. unfold ready. simpl. rewrite lookup_insert_eq.
      repeat split; try done; [congruence | constructor].
  - destruct (init_eq (Build_World env hp {| st.bot := None; st.messages := sm |} evs))
      as (prompt & warning & -> & Hw).
    apply warnings_load_nothing in Hw as [Hw _]. simpl.
    destruct sm as [l|]; simpl.
    + destruct (Hwf l eq_refl) as [turns Hl].
      eexists _, l, _, _. split; [reflexivity |].
      rewrite Hl. unfold ready. simpl. repeat split; try done.
      constructor; [by intros ? ? [= _ <-] | done].
    + eexists _, (fresh (dom hp)), _, _. split; [reflexivity |].
      unfold ready. simpl. rewrite lookup_insert_eq. repeat split; try done.
      constructor; [by intros ? ? [= _ <-] | done].
Qed.

(** A submitted prompt adds the user turn and then the reply to the
    history; the bot is given a copy of the turns before the prompt. *)
Lemma chat_block_spec prompt b l turns w :
  ready b l turns w ->
  exists response new w',
    chat_block prompt w = (Val tt, w')
    /\ ready b l
         (match submitted prompt with
          | Some p =>
              turns ++ [ {| role := "user"; content := p |};
                         {| role := "assistant"; content := response |} ]
          | None => turns
          end) w'
    /\ environ w' = environ w
    /\ events w' = events w ++ new
    /\ Forall (fun ev => is_template_load ev = false) new.
Proof.
  intros [Hs Hl]. unfold chat_block.
  destruct (submitted prompt) as [p|].
  2:{ exists "", [], w. rewrite app_nil_r. by repeat split. }
  destruct w as [env hp ss evs]; simpl in Hs, Hl; subst ss.
  unfold bind, session_messages, session_bot, get_session_state, ret,
    list_append, read_list, new_list, bind; simpl.
  rewrite Hl; simpl. rewrite lookup_insert_eq; simpl.
  rewrite all_but_last_snoc.
  set (heap1 := <[l := turns ++ [ {| role := "user"; content := p |} ]]> hp).
  set (h := fresh (dom heap1)).
  assert (Hne : h <> l).
  { intros Heq. apply (is_fresh (dom heap1)). fold h. rewrite Heq.
    apply elem_of_dom. unfold heap1. rewrite lookup_insert_eq. by eexists. }
  match goal with
  | |- context [get_ai_response b p h ?w2] =>
      destruct (get_ai_response_total b p h w2) as (response & new & -> & Hnew)
  end.
  simpl. rewrite lookup_insert_ne by done. unfold heap1 at 1.
  rewrite lookup_insert_eq.
  eexists response, new, _. split; [reflexivity |].
  unfold ready. simpl. rewrite lookup_insert_eq, <- app_assoc.
  by repeat split.
Qed.

(** The sidebar button, when pressed, names a new empty list as the
    history and asks for a rerun. *)
Lemma sidebar_block_spec clear_chat_history b l turns w :
  ready b l turns w ->
  exists l' w',
    sidebar_block clear_chat_history w
    = (if clear_chat_history then Raise RerunException else Val tt, w')
    /\ ready b l' (if clear_chat_history then [] else turns) w'
    /\ environ w' = environ w
    /\ events w' = events w.
Proof.
  intros [Hs Hl]. unfold sidebar_block. destruct clear_chat_history.
  - eexists (fresh (dom (heap w))), _.
    split; [reflexivity |]. unfold ready. simpl. rewrite Hs. simpl.
    by rewrite lookup_insert_eq.
  - exists l, w. repeat split; done.
Qed.

Lemma bind_assoc {A B C} (m : M A) (k : A -> M B) (k' : B -> M C) w :
  bind (bind m k) k' w = bind m (fun a => bind (k a) k') w.
Proof. unfold bind. by destruct (m w) as [[a|e] w']. Qed.

(** One run of the script, from a session whose history name does not
    dangle. *)
Lemma main_spec prompt clear_chat_history w :
  well_formed w ->
  exists b l response new w',
    main prompt clear_chat_history w
    = (if clear_chat_history then Raise RerunException else Val tt, w')
    /\ ready b l
         (if clear_chat_history then []
          else match submitted prompt with
               | Some p =>
                   history w ++ [ {| role := "user"; content := p |};
                                  {| role := "assistant"; content := response |} ]
               | None => history w
               end) w'
    /\ (forall b', st.bot (session_state w) = Some b' -> b' = b)
    /\ (st.bot (session_state w) = None ->
        client b
        = if truthy (environ w !! "OPENAI_API_KEY")
          then Some {| openai.api_key := environ w !! "OPENAI_API_KEY" |}
          else None)
    /\ environ w' = environ w
    /\ events w' = events w ++ new
    /\ loads_without_context new.
Proof.
  intros Hwf.
  destruct (prepare_spec w Hwf)
    as (b & l & new1 & w1 & Hrun1 & Hready1 & Hbot & Hclient & Henv1 & Hev1 & Hnew1).
  destruct (chat_block_spec prompt b l _ w1 Hready1)
    as (response & new2 & w2 & Hrun2 & Hready2 & Henv2 & Hev2 & Hnew2).
  destruct (sidebar_block_spec clear_chat_history b l _ w2 Hready2)
    as (l' & w3 & Hrun3 & Hready3 & Henv3 & Hev3).
  exists b, l', response, (new1 ++ new2), w3.
  split; [| split; [| split; [| split; [| split; [| split]]]]].
  - rewrite main_blocks.
    change (ensure_bot ;; ensure_messages ;; chat_block prompt ;;
            sidebar_block clear_chat_history)
      with (bind ensure_bot (fun _ => bind ensure_messages (fun _ =>
              bind (chat_block prompt) (fun _ => sidebar_block clear_chat_history)))).
    rewrite <- (bind_assoc ensure_bot (fun _ => ensure_messages)).
    rewrite (bind_val _ _ _ _ _ Hrun1), (bind_val _ _ _ _ _ Hrun2).
    exact Hrun3.
  - destruct clear_chat_history; [done |]. by destruct (submitted prompt).
  - done.
  - done.
  - congruence.
  - rewrite Hev3, Hev2, Hev1. by rewrite app_assoc.
  - apply Forall_app. split; [done |].
    by apply not_template_load_without_context.
Qed.

(** One interaction: the run, and the rerun when the button asked for it. *)
Lemma script_run_spec prompt clear_chat_history w :
  well_formed w ->
  exists b l response new w',
    script_run prompt clear_chat_history w = (Val tt, w')
    /\ ready b l
         (if clear_chat_history then []
          else match submitted prompt with
               | Some p =>
                   history w ++ [ {| role := "user"; content := p |};
                                  {| role := "assistant"; content := response |} ]
               | None => history w
               end) w'
    /\ (forall b', st.bot (session_state w) = Some b' -> b' = b)
    /\ (st.bot (session_state w) = None ->
        client b
        = if truthy (environ w !! "OPENAI_API_KEY")
          then Some {| openai.api_key := environ w !! "OPENAI_API_KEY" |}
          else None)
    /\ environ w' = environ w
    /\ events w' = events w ++ new
    /\ loads_without_context new.
Proof.
  intros Hwf.
  destruct (main_spec prompt clear_chat_history w Hwf)
    as (b & l & response & new & w1 & Hrun & Hready & Hbot & Hclient & Henv & Hev & Hnew).
  unfold script_run. rewrite Hrun. destruct clear_chat_history.
  2:{ exists b, l, response, new, w1. repeat (split; [done |]). done. }
  destruct (main_spec None false w1 (ready_well_formed _ _ _ _ Hready))
    as (b2 & l2 & response2 & new2 & w2 & Hrun2 & Hready2 & Hbot2 & _ & Henv2 & Hev2 & Hnew2).
  simpl in Hready2. rewrite (history_ready _ _ _ _ Hready) in Hready2.
  assert (b = b2) as <-.
  { apply Hbot2. destruct Hready as [-> _]. done. }
  exists b, l2, response, (new ++ new2), w2.
  repeat (split; [done |]).
  split; [congruence |]. split.
  - rewrite Hev2, Hev. by rewrite app_assoc.
  - by apply Forall_app.
Qed.

End Script.

(** ** Exact accounts of the blocks of the script *)

Section ScriptExact.
Context `{!Runtime}.

(** The first two blocks: what they add to the events is the one template
    load of the constructor, with its warning if any, and only when the
    session had no bot. *)
Lemma prepare_exact w :
  well_formed w ->
  exists b l warning w',
    (ensure_bot ;; ensure_messages) w = (Val tt, w')
    /\ ready b l (history w) w'
    /\ (forall b', st.bot (session_state w) = Some b' -> b' = b)
    /\ environ w' = environ w
    /\ events w'
       = events w
         ++ match st.bot (session_state w) with
            | Some _ => []
            | None => GetTemplate "recipe_bot_prompt.j2" None :: warning
            end
    /\ Forall (fun ev => exists body, ev = StWarning body) warning.
Proof.
  intros Hwf. unfold ensure_bot, ensure_messages, bind, get_session_state.
  unfold history, well_formed in *.
  destruct w as [env hp [sb sm] evs]; simpl in *.
  destruct sb as [b|]; simpl.
  - destruct sm as [l|]; simpl.
    + destruct (Hwf l eq_refl) as [turns Hl].
      eexists b, l, [], _. split; [reflexivity |].
      rewrite Hl, app_nil_r. repeat split; try done. congruence.
    + eexists b, (fresh (dom hp)), [], _. split; [reflexivity |].
      rewrite app_nil_r. unfold ready. simpl. rewrite lookup_insert_eq.
      repeat split; try done. congruence.
  - destruct (init_eq (Build_World env hp {| st.bot := None; st.messages := sm |} evs))
      as (prompt & warning & -> & Hw).
    simpl. destruct sm as [l|]; simpl.
    + destruct (Hwf l eq_refl) as [turns Hl].
      eexists _, l, warning, _. split; [reflexivity |].
      rewrite Hl. unfold ready. simpl. by repeat split.
    + eexists _, (fresh (dom hp)), warning, _. split; [reflexivity |].
      unfold ready. simpl. rewrite lookup_insert_eq. by repeat split.
Qed.

Lemma prepare_ready b l turns w :
  ready b l turns w -> (ensure_bot ;; ensure_messages) w = (Val tt, w).
Proof.
  intros [Hs _]. unfold ensure_bot, ensure_messages, bind, get_session_state.
  simpl. rewrite Hs. simpl. by rewrite Hs.
Qed.

(** The chat block: the bot is called with the prompt and a new list that
    holds the turns before the prompt; what it returns is stored as the
    assistant turn. *)
Lemma chat_block_exact prompt p b l turns w :
  ready b l turns w ->
  submitted prompt = Some p ->
  exists h w2,
    heap w2 !! h = Some turns
    /\ events w2 = events w
    /\ forall r w3,
        get_ai_response b p h w2 = (Val r, w3) ->
        exists w4,
          chat_block prompt w = (Val tt, w4)
          /\ ready b l
               (turns ++ [ {| role := "user"; content := p |};
                           {| role := "assistant"; content := r |} ]) w4
          /\ environ w4 = environ w
          /\ events w4 = events w3.
Proof.
  intros [Hs Hl] Hp.
  destruct w as [env hp ss evs]; simpl in Hs, Hl; subst ss.
  set (heap1 := <[l := turns ++ [ {| role := "user"; content := p |} ]]> hp).
  set (h := fresh (dom heap1)).
  assert (Hne : h <> l).
  { intros Heq. apply (is_fresh (dom heap1)). fold h. rewrite Heq.
    apply elem_of_dom. unfold heap1. rewrite lookup_insert_eq. by eexists. }
  exists h,
    (Build_World env (<[h := turns]> heap1)
       {| st.bot := Some b; st.messages := Some l |} evs).
  split; [simpl; by rewrite lookup_insert_eq |]. split; [done |].
  intros r w3 Hcall.
  destruct (get_ai_response_total b p h
              (Build_World env (<[h := turns]> heap1)
                 {| st.bot := Some b; st.messages := Some l |} evs))
    as (text & new & Htotal & _).
  rewrite Hcall in Htotal. injection Htotal as -> ->.
  unfold chat_block. rewrite Hp.
  unfold bind, session_messages, session_bot, get_session_state, ret,
    list_append, read_list, new_list, bind; simpl.
  rewrite Hl; simpl. rewrite lookup_insert_eq; simpl.
  rewrite all_but_last_snoc. fold heap1. fold h.
  unfold set_heap at 1 2. simpl. rewrite Hcall. simpl.
  rewrite lookup_insert_ne by done. unfold heap1 at 1.
  rewrite lookup_insert_eq.
  eexists. split; [reflexivity |].
  unfold ready. simpl. rewrite lookup_insert_eq, <- app_assoc.
  by repeat split.
Qed.

(** A run with nothing submitted and the button not pressed, on a session
    that is ready, does nothing at all. *)
Lemma main_idle prompt b l turns w :
  ready b l turns w ->
  submitted prompt = None ->
  main prompt false w = (Val tt, w).
Proof.
  intros Hready Hp. rewrite main_blocks.
  change (ensure_bot ;; ensure_messages ;; chat_block prompt ;; sidebar_block false)
    with (bind ensure_bot (fun _ => bind ensure_messages (fun _ =>
            bind (chat_block prompt) (fun _ => sidebar_block false)))).
  rewrite <- (bind_assoc ensure_bot (fun _ => ensure_messages)).
  rewrite (bind_val _ _ _ _ _ (prepare_ready _ _ _ _ Hready)).
  unfold chat_block. by rewrite Hp.
Qed.

End ScriptExact.

Section InteractionExact.
Context `{!Runtime}.

(** With a client, the call in one equation: one request, then the
    completion, or the notice and the fallback reply. *)
Lemma get_ai_response_outcome self c user_message conversation_history w turns :
  client self = Some c ->
  heap w !! conversation_history = Some turns ->
  get_ai_response self user_message conversation_history w
  = (Val (completion_or_fallback user_message
            (chat_completions_create (events w) c
               (spec_request (system_prompt self) turns user_message))),
     {| environ := environ w; heap := heap w; session_state := session_state w;
        events :=
          events w
          ++ ChatCompletionsCreate c
               (spec_request (system_prompt self) turns user_message)
             :: failure_notice
                  (chat_completions_create (events w) c
                     (spec_request (system_prompt self) turns user_message)) |}).
Proof.
  intros Hc Hh. rewrite (get_ai_response_client _ _ _ _ _ _ Hc Hh). simpl.
  unfold completion_or_fallback, failure_notice, backend_failure, add_event.
  destruct (chat_completions_create _ _ _) as [[[|choice rest]]|msg]; simpl;
    by rewrite <- ?app_assoc.
Qed.

(** The end of an interaction, once the chat block is through. *)
Lemma script_run_tail prompt clear_chat_history w w1 wc b l turns :
  (ensure_bot ;; ensure_messages) w = (Val tt, w1) ->
  chat_block prompt w1 = (Val tt, wc) ->
  ready b l turns wc ->
  exists l' w',
    script_run prompt clear_chat_history w = (Val tt, w')
    /\ (main prompt clear_chat_history w).1
       = (if clear_chat_history then Raise RerunException else Val tt)
    /\ ready b l' (if clear_chat_history then [] else turns) w'
    /\ environ w' = environ wc
    /\ events w' = events wc.
Proof.
  intros Hprepare Hchat Hready.
  destruct (sidebar_block_spec clear_chat_history b l turns wc Hready)
    as (l' & w' & Hside & Hready' & Henv & Hev).
  assert (Hmain : main prompt clear_chat_history w
                  = (if clear_chat_history then Raise RerunException else Val tt, w')).
  { rewrite main_blocks.
    change (ensure_bot ;; ensure_messages ;; chat_block prompt ;;
            sidebar_block clear_chat_history)
      with (bind ensure_bot (fun _ => bind ensure_messages (fun _ =>
              bind (chat_block prompt) (fun _ => sidebar_block clear_chat_history)))).
    rewrite <- (bind_assoc ensure_bot (fun _ => ensure_messages)).
    by rewrite (bind_val _ _ _ _ _ Hprepare), (bind_val _ _ _ _ _ Hchat). }
  exists l', w'. unfold script_run. rewrite Hmain.
  destruct clear_chat_history; simpl; [| done].
  by rewrite (main_idle None b l' [] w' Hready' eq_refl).
Qed.

(** One interaction, in terms of what the bot returns. *)
Lemma script_run_exact prompt clear_chat_history w :
  well_formed w ->
  exists b l warning w1,
    ready b l (history w) w1
    /\ (forall b', st.bot (session_state w) = Some b' -> b' = b)
    /\ environ w1 = environ w
    /\ events w1
       = events w
         ++ match st.bot (session_state w) with
            | Some _ => []
            | None => GetTemplate "recipe_bot_prompt.j2" None :: warning
            end
    /\ Forall (fun ev => exists body, ev = StWarning body) warning
    /\ (main prompt clear_chat_history w).1
       = (if clear_chat_history then Raise RerunException else Val tt)
    /\ match submitted prompt with
       | None =>
           exists l' w',
             script_run prompt clear_chat_history w = (Val tt, w')
             /\ ready b l' (if clear_chat_history then [] else history w) w'
             /\ environ w' = environ w
             /\ events w' = events w1
       | Some p =>
           exists h w2,
             heap w2 !! h = Some (history w)
             /\ events w2 = events w1
             /\ forall r w3,
                 get_ai_response b p h w2 = (Val r, w3) ->
                 exists l' w',
                   script_run prompt clear_chat_history w = (Val tt, w')
                   /\ ready b l'
                        (if clear_chat_history then []
                         else history w
                              ++ [ {| role := "user"; content := p |};
                                   {| role := "assistant"; content := r |} ]) w'
                   /\ environ w' = environ w
                   /\ events w' = events w3
       end.
Proof.
  intros Hwf.
  destruct (prepare_exact w Hwf)
    as (b & l & warning & w1 & Hprepare & Hready & Hbot & Henv & Hev & Hwarn).
  exists b, l, warning, w1. do 5 (split; [done |]).
  destruct (submitted prompt) as [p|] eqn:Hp.
  - destruct (chat_block_exact prompt p b l _ w1 Hready Hp)
      as (h & w2 & Hh & Hev2 & Hchat).
    destruct (get_ai_response_total b p h w2) as (text & new & Hcall & _).
    destruct (Hchat _ _ Hcall) as (w4 & Hrun4 & Hready4 & Henv4 & Hev4).
    destruct (script_run_tail prompt clear_chat_history w w1 w4 b l _
                Hprepare Hrun4 Hready4) as (l' & w' & _ & Hmain & _).
    split; [exact Hmain |].
    exists h, w2. split; [done |]. split; [done |].
    intros r w3 Hcall3.
    destruct (Hchat _ _ Hcall3) as (w5 & Hrun5 & Hready5 & Henv5 & Hev5).
    destruct (script_run_tail prompt clear_chat_history w w1 w5 b l _
                Hprepare Hrun5 Hready5) as (l5 & w6 & Hrun6 & _ & Hready6 & Henv6 & Hev6).
    exists l5, w6. repeat (split; [done |]). split; congruence.
  - assert (Hchat : chat_block prompt w1 = (Val tt, w1)).
    { unfold chat_block. by rewrite Hp. }
    destruct (script_run_tail prompt clear_chat_history w w1 w1 b l _
                Hprepare Hchat Hready) as (l' & w' & Hrun & Hmain & Hready' & Henv' & Hev').
    split; [exact Hmain |].
    exists l', w'. repeat (split; [done |]). split; congruence.
Qed.

End InteractionExact.

(** ** Runs that Streamlit stops *)

Lemma st_yield_quiet stops line pass w : quiet (st_yield stops line pass) w.
Proof. unfold quiet, st_yield. destruct (stops _); [by right | by left]. Qed.

Lemma quiet_bind (m1 m2 : M unit) w :
  quiet m1 w -> quiet m2 w -> quiet (m1 ;; m2) w.
Proof.
  unfold quiet, bind. intros [-> | ->] H2; [exact H2 | by right].
Qed.

Lemma quiet_bind_cases {A} (m : M unit) (k : unit -> M A) w :
  quiet m w ->
  bind m k w = k tt w \/ bind m k w = (Raise RerunException, w).
Proof. unfold bind. intros [-> | ->]; [by left | by right]. Qed.

Lemma replay_quiet stops messages pass w :
  quiet (replay_stoppable stops messages pass) w.
Proof.
  revert pass. induction messages as [|t messages IH]; intros pass; simpl.
  - by left.
  - repeat apply quiet_bind; try apply st_yield_quiet. apply IH.
Qed.

Lemma header_quiet stops b l turns w :
  ready b l turns w -> quiet (header_stoppable stops) w.
Proof.
  intros [Hs Hl]. unfold header_stoppable.
  do 2 (apply quiet_bind; [apply st_yield_quiet |]).
  assert (Heq : (l0 <- session_messages ;;
                 xs <- read_list l0 ;;
                 replay_stoppable stops xs 0 ;; st_yield stops 118 0) w
                = (replay_stoppable stops turns 0 ;; st_yield stops 118 0) w).
  { unfold bind at 1 2, session_messages, bind, get_session_state, read_list.
    rewrite Hs. simpl. by rewrite Hl. }
  unfold quiet. rewrite Heq.
  apply quiet_bind; [apply replay_quiet | apply st_yield_quiet].
Qed.

Lemma sidebar_draws_quiet stops w : quiet (sidebar_draws stops) w.
Proof.
  unfold sidebar_draws. repeat apply quiet_bind; apply st_yield_quiet.
Qed.

Section Stopped.
Context `{!Runtime}.

Lemma main_stoppable_blocks stops prompt clear_chat_history :
  main_stoppable stops prompt clear_chat_history
  = (ensure_bot_stoppable stops ;; ensure_messages ;; header_stoppable stops ;;
     chat_block_stoppable stops prompt ;; sidebar_draws stops ;;
     sidebar_block clear_chat_history).
Proof. reflexivity. Qed.

(** The constructor either runs as when nothing is pending, or is stopped
    at its warning, after the load and before anything is shown. *)
Lemma init_stoppable_cases stops w :
  init_stoppable stops w = __init__ w
  \/ init_stoppable stops w
     = (Raise RerunException, add_event (GetTemplate "recipe_bot_prompt.j2" None) w).
Proof.
  unfold init_stoppable, __init__, bind, getenv,
    _load_system_prompt_stoppable, _load_system_prompt, try_except,
    render_template, st_yield.
  destruct (truthy (environ w !! "OPENAI_API_KEY")); simpl;
    destruct (jinja2_render _ _ _); simpl; try (by left);
    unfold bind; destruct (stops (39, 0)); simpl; (by left) || (by right).
Qed.

Lemma ensure_bot_stoppable_cases stops w :
  ensure_bot_stoppable stops w = ensure_bot w
  \/ (st.bot (session_state w) = None
      /\ ensure_bot_stoppable stops w
         = (Raise RerunException,
            add_event (GetTemplate "recipe_bot_prompt.j2" None) w)).
Proof.
  unfold ensure_bot_stoppable, ensure_bot, bind, get_session_state.
  destruct (st.bot (session_state w)) eqn:Hb; [by left |].
  destruct (init_stoppable_cases stops w) as [-> | ->]; [by left | by right].
Qed.

(** The bot's call either runs as when nothing is pending, or is stopped
    at its error notice, after the backend call. *)
Lemma get_ai_response_stoppable_cases stops self user_message conversation_history w :
  get_ai_response_stoppable stops self user_message conversation_history w
  = get_ai_response self user_message conversation_history w
  \/ exists c evs,
      client self = Some c
      /\ get_ai_response_stoppable stops self user_message conversation_history w
         = (Raise RerunException,
            {| environ := environ w; heap := heap w;
               session_state := session_state w; events := events w ++ evs |})
      /\ Forall (fun ev => is_template_load ev = false) evs.
Proof.
  unfold get_ai_response_stoppable, get_ai_response.
  destruct (client self) as [c|] eqn:Hc; [| by left].
  unfold try_except, bind, read_list, create, st_yield.
  destruct (heap w !! conversation_history) as [turns|]; simpl.
  - destruct (chat_completions_create _ _ _) as [[[|choice rest]]|msg]; simpl;
      try (by left);
      destruct (stops (76, 0)); simpl; try (by left);
      right; eexists c, [_]; (split; [done |]);
      (split; [reflexivity | by repeat constructor]).
  - destruct (stops (76, 0)); simpl; [| by left].
    right. exists c, []. rewrite app_nil_r. split; [done |].
    split; [by destruct w | constructor].
Qed.

End Stopped.

Section StoppedRuns.
Context `{!Runtime}.

(** The chat block either runs as when nothing is pending, or is stopped
    with the prompt stored and no reply. *)
Lemma chat_block_stoppable_cases stops prompt b l turns w :
  ready b l turns w ->
  chat_block_stoppable stops prompt w = chat_block prompt w
  \/ exists p w' evs,
      submitted prompt = Some p
      /\ chat_block_stoppable stops prompt w = (Raise RerunException, w')
      /\ ready b l (turns ++ [ {| role := "user"; content := p |} ]) w'
      /\ environ w' = environ w
      /\ events w' = events w ++ evs
      /\ Forall (fun ev => is_template_load ev = false) evs
      /\ (client b = None -> evs = []).
Proof.
  intros [Hs Hl]. unfold chat_block_stoppable, chat_block.
  destruct (submitted prompt) as [p|] eqn:Hp; [| by left].
  destruct w as [env hp ss evs0]; simpl in Hs, Hl; subst ss.
  set (heap1 := <[l := turns ++ [ {| role := "user"; content := p |} ]]> hp).
  set (h := fresh (dom heap1)).
  assert (Hne : h <> l).
  { intros Heq. apply (is_fresh (dom heap1)). fold h. rewrite Heq.
    apply elem_of_dom. unfold heap1. rewrite lookup_insert_eq. by eexists. }
  unfold bind, session_messages, session_bot, get_session_state, ret,
    list_append, read_list, new_list, bind, st_yield, raise; simpl.
  rewrite Hl; simpl.
  assert (Hl1 : heap1 !! l
                = Some (turns ++ [ {| role := "user"; content := p |} ])).
  { unfold heap1. by rewrite lookup_insert_eq. }
  assert (Hl3 : <[h := turns]> heap1 !! l
                = Some (turns ++ [ {| role := "user"; content := p |} ])).
  { by rewrite lookup_insert_ne. }
  destruct (stops (123, 0)); simpl.
  { right. eexists p, _, []. split; [done |]. split; [reflexivity |].
    unfold ready. simpl. by rewrite app_nil_r. }
  destruct (stops (124, 0)); simpl.
  { right. eexists p, _, []. split; [done |]. split; [reflexivity |].
    unfold ready. simpl. by rewrite app_nil_r. }
  destruct (stops (127, 0)); simpl.
  { right. eexists p, _, []. split; [done |]. split; [reflexivity |].
    unfold ready. simpl. by rewrite app_nil_r. }
  destruct (stops (128, 0)); simpl.
  { right. eexists p, _, []. split; [done |]. split; [reflexivity |].
    unfold ready. simpl. by rewrite app_nil_r. }
  rewrite lookup_insert_eq; simpl. rewrite all_but_last_snoc.
  fold heap1. fold h.
  match goal with
  | |- context [get_ai_response_stoppable stops b p h ?w3] =>
      destruct (get_ai_response_stoppable_cases stops b p h w3)
        as [-> | (c & evs & Hc & -> & Hevs)];
      [destruct (get_ai_response_total b p h w3) as (text & new & Hcall & Hnew);
       pose proof Hcall as Hcall'; rewrite Hcall |]
  end; simpl.
  - destruct (stops (133, 0)); simpl; [| by left].
    right. eexists p, _, new. split; [done |]. split; [reflexivity |].
    unfold ready. simpl. repeat (split; [done |]).
    intros Hnone.
    rewrite (get_ai_response_no_client b p h _ Hnone) in Hcall'.
    injection Hcall' as _ Hnil.
    apply (app_inv_head evs0). by rewrite app_nil_r, <- Hnil.
  - right. eexists p, _, evs. split; [done |]. split; [reflexivity |].
    unfold ready. simpl. repeat (split; [done |]).
    intros Hnone. by rewrite Hnone in Hc.
Qed.

(** The world an interaction ends in, from its blocks. *)
Lemma script_run_blocks prompt clear_chat_history w w1 wc b l turns :
  (ensure_bot ;; ensure_messages) w = (Val tt, w1) ->
  chat_block prompt w1 = (Val tt, wc) ->
  ready b l turns wc ->
  main prompt clear_chat_history w = sidebar_block clear_chat_history wc
  /\ (script_run prompt clear_chat_history w).2
     = (sidebar_block clear_chat_history wc).2
  /\ (script_run prompt false w).2 = wc.
Proof.
  intros Hprepare Hchat Hready.
  assert (Hmain : forall c, main prompt c w = sidebar_block c wc).
  { intros c. rewrite main_blocks.
    change (ensure_bot ;; ensure_messages ;; chat_block prompt ;; sidebar_block c)
      with (bind ensure_bot (fun _ => bind ensure_messages (fun _ =>
              bind (chat_block prompt) (fun _ => sidebar_block c)))).
    rewrite <- (bind_assoc ensure_bot (fun _ => ensure_messages)).
    by rewrite (bind_val _ _ _ _ _ Hprepare), (bind_val _ _ _ _ _ Hchat). }
  split; [apply Hmain |]. split.
  - destruct (sidebar_block_spec clear_chat_history b l turns wc Hready)
      as (l' & w' & Hside & Hready' & _).
    unfold script_run. rewrite Hmain, Hside.
    destruct clear_chat_history; simpl; [| done].
    by rewrite (main_idle None b l' [] w' Hready' eq_refl).
  - unfold script_run. by rewrite Hmain.
Qed.

Lemma bind_congr {A B} (m1 m2 : M A) (k : A -> M B) w :
  m1 w = m2 w -> bind m1 k w = bind m2 k w.
Proof. intros Heq. unfold bind. by rewrite Heq. Qed.

(** A run under Streamlit's control ends normally or with the
    script-control exception, and the world it leaves is that of an
    interaction run to its end, or that of a construction stopped at its
    warning, or that of a prompt left without its reply. *)
Lemma main_stoppable_cases stops prompt clear_chat_history w :
  well_formed w ->
  ((main_stoppable stops prompt clear_chat_history w).1 = Val tt
   \/ (main_stoppable stops prompt clear_chat_history w).1 = Raise RerunException)
  /\ ((exists prompt' clear',
          (prompt' = None \/ prompt' = prompt)
          /\ (main_stoppable stops prompt clear_chat_history w).2
             = (script_run prompt' clear' w).2)
      \/ (st.bot (session_state w) = None
          /\ (main_stoppable stops prompt clear_chat_history w).2
             = add_event (GetTemplate "recipe_bot_prompt.j2" None) w)
      \/ unanswered prompt w (main_stoppable stops prompt clear_chat_history w).2).
Proof.
  intros Hwf.
  destruct (main_stoppable stops prompt clear_chat_history w) as [r w'] eqn:Hrun.
  simpl. rewrite main_stoppable_blocks in Hrun.
  change (ensure_bot_stoppable stops ;; ensure_messages ;; header_stoppable stops ;;
          chat_block_stoppable stops prompt ;; sidebar_draws stops ;;
          sidebar_block clear_chat_history)
    with (bind (ensure_bot_stoppable stops) (fun _ => bind ensure_messages (fun _ =>
            bind (header_stoppable stops) (fun _ =>
              bind (chat_block_stoppable stops prompt) (fun _ =>
                bind (sidebar_draws stops) (fun _ =>
                  sidebar_block clear_chat_history))))))
    in Hrun.
  destruct (ensure_bot_stoppable_cases stops w) as [Hbot | [Hnone Hbot]].
  2:{ unfold bind at 1 in Hrun. rewrite Hbot in Hrun. injection Hrun as <- <-.
      split; [by right |]. right. left. done. }
  rewrite (bind_congr _ _ _ _ Hbot) in Hrun.
  rewrite <- (bind_assoc ensure_bot (fun _ => ensure_messages)) in Hrun.
  destruct (prepare_exact w Hwf)
    as (b & l & warning & w1 & Hprepare & Hready1 & _ & Henv1 & _).
  rewrite (bind_val _ _ _ _ _ Hprepare) in Hrun.
  assert (Hidle : chat_block None w1 = (Val tt, w1)) by done.
  destruct (script_run_blocks None false w w1 w1 b l _ Hprepare Hidle Hready1)
    as (_ & _ & Hw1).
  destruct (quiet_bind_cases (header_stoppable stops)
              (fun _ => bind (chat_block_stoppable stops prompt) (fun _ =>
                 bind (sidebar_draws stops) (fun _ =>
                   sidebar_block clear_chat_history))) w1
              (header_quiet stops b l _ w1 Hready1)) as [Hhead | Hhead];
    rewrite Hhead in Hrun; clear Hhead.
  2:{ injection Hrun as <- <-. split; [by right |]. left. exists None, false. split; [by left | done]. }
  destruct (chat_block_stoppable_cases stops prompt b l _ w1 Hready1)
    as [Hchat | (p & w2 & evs & Hp & Hchat & Hready2 & Henv2 & Hev2 & Hevs & Hnoclient)].
  2:{ unfold bind at 1 in Hrun. rewrite Hchat in Hrun. injection Hrun as <- <-.
      split; [by right |].
      right. right. exists p, b, l, evs. rewrite Hw1.
      repeat (split; [done |]). split; [congruence |]. done. }
  rewrite (bind_congr _ _ _ _ Hchat) in Hrun.
  destruct (chat_block_spec prompt b l _ w1 Hready1)
    as (response & new & w4 & Hrun4 & Hready4 & _).
  rewrite (bind_val _ _ _ _ _ Hrun4) in Hrun.
  destruct (script_run_blocks prompt clear_chat_history w w1 w4 b l _
              Hprepare Hrun4 Hready4) as (_ & Hfull & Hw4).
  destruct (quiet_bind_cases (sidebar_draws stops)
              (fun _ => sidebar_block clear_chat_history) w4
              (sidebar_draws_quiet stops w4)) as [Hside | Hside];
    rewrite Hside in Hrun; clear Hside.
  2:{ injection Hrun as <- <-. split; [by right |]. left. exists prompt, false. split; [by right | done]. }
  destruct (sidebar_block_spec clear_chat_history b l _ w4 Hready4)
    as (l' & w5 & Hside & _).
  rewrite Hrun in Hfull. simpl in Hfull. rewrite Hside in Hrun.
  injection Hrun as <- <-. split.
  - destruct clear_chat_history; [by right | by left].
  - left. exists prompt, clear_chat_history. split; [by right | done].
Qed.

(** With no request pending the run with its [st.*] calls is [main]. *)
Lemma replay_never messages pass w :
  replay_stoppable never messages pass w = (Val tt, w).
Proof.
  revert pass. induction messages as [|t messages IH]; intros pass; [done |].
  simpl. unfold bind at 1 2. simpl. apply IH.
Qed.

Lemma header_never b l turns w :
  ready b l turns w -> header_stoppable never w = (Val tt, w).
Proof.
  intros [Hs Hl]. unfold header_stoppable.
  unfold bind, session_messages, bind, get_session_state, read_list. simpl.
  rewrite Hs. simpl. rewrite Hl. by rewrite replay_never.
Qed.

Lemma main_stoppable_never prompt clear_chat_history w :
  well_formed w ->
  main_stoppable never prompt clear_chat_history w
  = main prompt clear_chat_history w.
Proof.
  intros Hwf.
  destruct (prepare_exact w Hwf)
    as (b & l & warning & w1 & Hprepare & Hready1 & _).
  rewrite main_stoppable_blocks, main_blocks.
  change (ensure_bot_stoppable never ;; ensure_messages ;; header_stoppable never ;;
          chat_block_stoppable never prompt ;; sidebar_draws never ;;
          sidebar_block clear_chat_history)
    with (bind ensure_bot (fun _ => bind ensure_messages (fun _ =>
            bind (header_stoppable never) (fun _ =>
              bind (chat_block prompt) (fun _ =>
                sidebar_block clear_chat_history))))).
  change (ensure_bot ;; ensure_messages ;; chat_block prompt ;;
          sidebar_block clear_chat_history)
    with (bind ensure_bot (fun _ => bind ensure_messages (fun _ =>
            bind (chat_block prompt) (fun _ => sidebar_block clear_chat_history)))).
  rewrite <- !(bind_assoc ensure_bot (fun _ => ensure_messages)).
  rewrite !(bind_val _ _ _ _ _ Hprepare).
  by rewrite (bind_val _ _ _ _ _ (header_never b l _ w1 Hready1)).
Qed.

End StoppedRuns.
(** ** The chat surface *)

Lemma alternating_from_app (user_next : bool) (xs ys : list Turn) :
  alternating_from user_next (xs ++ ys)
  = alternating_from user_next xs
    && alternating_from (xorb user_next (Nat.odd (length xs))) ys.
Proof.
  revert user_next. induction xs as [|x xs IH]; intros user_next; simpl.
  - by rewrite xorb_false_r.
  - rewrite IH, <- andb_assoc. do 2 f_equal.
    rewrite Nat.odd_succ, <- Nat.negb_odd.
    by destruct user_next, (Nat.odd (length xs)).
Qed.

Lemma exchanges_snoc (turns : list Turn) (p response : string) :
  exchanges turns = true ->
  exchanges (turns ++ [ {| role := "user"; content := p |};
                        {| role := "assistant"; content := response |} ])
  = true.
Proof.
  unfold exchanges, alternating. intros [Halt Heven]%andb_true_iff.
  rewrite alternating_from_app, Halt, length_app, Nat.even_add, Heven.
  rewrite <- Nat.negb_even, Heven. done.
Qed.

Lemma prompted_from_snoc_user (after_user : bool) (turns : list Turn) (p : string) :
  prompted_from after_user turns = true ->
  prompted_from after_user (turns ++ [ {| role := "user"; content := p |} ]) = true.
Proof.
  revert after_user. induction turns as [|t turns IH]; intros after_user; simpl.
  - done.
  - destruct (String.eqb (role t) "user"); [apply IH |].
    intros [[Hrole Hafter]%andb_true_iff Hrest]%andb_true_iff.
    rewrite Hrole, Hafter. simpl. by apply IH.
Qed.

Lemma prompted_from_snoc_pair (after_user : bool) (turns : list Turn)
    (p response : string) :
  prompted_from after_user turns = true ->
  prompted_from after_user
    (turns ++ [ {| role := "user"; content := p |};
                {| role := "assistant"; content := response |} ]) = true.
Proof.
  revert after_user. induction turns as [|t turns IH]; intros after_user; simpl.
  - done.
  - destruct (String.eqb (role t) "user"); [apply IH |].
    intros [[Hrole Hafter]%andb_true_iff Hrest]%andb_true_iff.
    rewrite Hrole, Hafter. simpl. by apply IH.
Qed.

Section ChatSurface.
Context `{!Runtime}.

Lemma initial_invariant w : initial w -> invariant w.
Proof.
  intros (Hs & Hh & He). unfold invariant, well_formed, history.
  rewrite Hs, He. simpl. repeat split; [done | constructor].
Qed.

Lemma interaction_invariant prompt clear_chat_history w :
  invariant w -> invariant (script_run prompt clear_chat_history w).2.
Proof.
  intros (Hwf & Hloads & Hex).
  destruct (script_run_spec prompt clear_chat_history w Hwf)
    as (b & l & response & new & w' & -> & Hready & _ & _ & _ & Hev & Hnew).
  simpl. split; [by eapply ready_well_formed |]. split.
  - rewrite Hev. by apply Forall_app.
  - rewrite (history_ready _ _ _ _ Hready).
    destruct clear_chat_history; [done |].
    destruct (submitted prompt); [by apply prompted_from_snoc_pair | done].
Qed.

Lemma step_invariant w w' : step w w' -> invariant w -> invariant w'.
Proof.
  intros Hstep Hinv. destruct Hstep as [prompt clear w|env w|stops prompt clear w].
  - by apply interaction_invariant.
  - done.
  - pose proof Hinv as (Hwf & Hloads & Hex).
    destruct (main_stoppable_cases stops prompt clear w Hwf)
      as (_ & [(prompt' & clear' & Hwhich & ->) | [(Hnone & ->) | Hun]]).
    + by apply interaction_invariant.
    + split; [done |]. split; [| done].
      simpl. apply Forall_app. split; [done |].
      constructor; [| done]. by intros name ctx [= _ <-].
    + destruct Hun as (p & b & l & evs & Hp & Hready1 & Hready' & Henv & Hev & Hevs & _).
      destruct (interaction_invariant None false w Hinv) as (_ & Hloads1 & _).
      split; [by eapply ready_well_formed |]. split.
      * rewrite Hev. apply Forall_app. split; [done |].
        by apply not_template_load_without_context.
      * rewrite (history_ready _ _ _ _ Hready').
        by apply prompted_from_snoc_user.
Qed.

Lemma steps_invariant w w' : rtc step w w' -> invariant w -> invariant w'.
Proof.
  induction 1 as [w|w w1 w2 Hstep _ IH]; [done |].
  intros Hinv. apply IH. by eapply step_invariant.
Qed.

Lemma reachable_invariant w : reachable w -> invariant w.
Proof.
  intros (w0 & Hinit & Hsteps).
  eapply steps_invariant; [exact Hsteps |]. by apply initial_invariant.
Qed.

Lemma reachable_steps w w' : reachable w -> rtc step w w' -> reachable w'.
Proof.
  intros (w0 & Hinit & Hsteps) Hmore. exists w0. split; [done |].
  by etrans.
Qed.

Lemma interaction_keeps_bot prompt clear_chat_history w b :
  well_formed w ->
  st.bot (session_state w) = Some b ->
  st.bot (session_state (script_run prompt clear_chat_history w).2) = Some b.
Proof.
  intros Hwf Hb.
  destruct (script_run_spec prompt clear_chat_history w Hwf)
    as (b0 & l & response & new & w' & -> & [Hs _] & Hbot & _).
  simpl. rewrite Hs. simpl. by rewrite (Hbot b Hb).
Qed.

Lemma step_keeps_bot w w' b :
  well_formed w -> step w w' ->
  st.bot (session_state w) = Some b -> st.bot (session_state w') = Some b.
Proof.
  intros Hwf Hstep Hb.
  destruct Hstep as [prompt clear w|env w|stops prompt clear w]; [| done |].
  - by apply interaction_keeps_bot.
  - destruct (main_stoppable_cases stops prompt clear w Hwf)
      as (_ & [(prompt' & clear' & Hwhich & ->) | [(Hnone & ->) | Hun]]).
    + by apply interaction_keeps_bot.
    + done.
    + destruct Hun as (p & b0 & l & evs & _ & [Hs1 _] & [Hs' _] & _).
      pose proof (interaction_keeps_bot None false w b Hwf Hb) as Hb1.
      rewrite Hs1 in Hb1. rewrite Hs'. done.
Qed.

Lemma whole_step_step w w' : whole_step w w' -> step w w'.
Proof. intros [prompt clear w0|env w0]; constructor. Qed.

Lemma whole_steps_steps w w' : rtc whole_step w w' -> rtc step w w'.
Proof.
  induction 1 as [|w1 w2 w3 Hstep _ IH]; [apply rtc_refl |].
  eapply rtc_l; [by apply whole_step_step | exact IH].
Qed.

Lemma reachable_unstopped_reachable w : reachable_unstopped w -> reachable w.
Proof.
  intros (w0 & Hinit & Hsteps). exists w0. split; [done |].
  by apply whole_steps_steps.
Qed.

(** When no run is stopped, every prompt in the history has its reply. *)
Lemma reachable_unstopped_exchanges w :
  reachable_unstopped w -> exchanges (history w) = true.
Proof.
  intros (w0 & Hinit & Hsteps).
  assert (Hreach : reachable w0) by (exists w0; split; [done | apply rtc_refl]).
  assert (Hex : exchanges (history w0) = true).
  { destruct Hinit as (Hs & _). unfold history. by rewrite Hs. }
  clear Hinit.
  induction Hsteps as [|w1 w2 w3 Hstep _ IH]; [done |].
  apply IH.
  - eapply reachable_steps; [exact Hreach |]. by apply rtc_once, whole_step_step.
  - destruct Hstep as [prompt clear w1|env w1]; [| done].
    destruct (reachable_invariant w1 Hreach) as (Hwf & _).
    destruct (script_run_spec prompt clear w1 Hwf)
      as (b & l & response & new & w' & -> & Hready & _).
    simpl. rewrite (history_ready _ _ _ _ Hready).
    destruct clear; [done |].
    destruct (submitted prompt); [by apply exchanges_snoc | done].
Qed.

Lemma get_ai_response_ignores_environ self user_message conversation_history env w :
  get_ai_response self user_message conversation_history (set_environ env w)
  = ((get_ai_response self user_message conversation_history w).1,
     set_environ env (get_ai_response self user_message conversation_history w).2).
Proof.
  unfold get_ai_response. destruct (client self) as [c|]; [| done].
  unfold try_except, bind, read_list, create. simpl.
  destruct (heap w !! conversation_history) as [turns|]; [| done]. simpl.
  destruct (chat_completions_create _ _ _) as [[[|choice rest]]|msg]; done.
Qed.

(** C7. The bot of a session is made by the first run of the script, with
    a client exactly when the environment then holds a non-empty
    credential.  From then on the session keeps that bot, with that client
    and that system prompt, through every sequence of interactions, of
    runs that Streamlit stops and of changes of the environment; and a call
    of [get_ai_response] does the same whatever the environment holds at
    the time of the call. *)
Theorem mode_and_prompt_fixed_at_construction :
  (forall w prompt clear_chat_history,
      reachable w ->
      st.bot (session_state w) = None ->
      exists b,
        st.bot (session_state (script_run prompt clear_chat_history w).2) = Some b
        /\ client b
           = if truthy (environ w !! "OPENAI_API_KEY")
             then Some {| openai.api_key := environ w !! "OPENAI_API_KEY" |}
             else None)
  /\ (forall w w' b,
        reachable w ->
        rtc step w w' ->
        st.bot (session_state w) = Some b ->
        st.bot (session_state w') = Some b)
  /\ (forall self user_message conversation_history env w,
        get_ai_response self user_message conversation_history (set_environ env w)
        = ((get_ai_response self user_message conversation_history w).1,
           set_environ env
             (get_ai_response self user_message conversation_history w).2)).
Proof.
  split; [| split].
  - intros w prompt clear Hreach Hnone.
    destruct (reachable_invariant w Hreach) as (Hwf & _).
    destruct (script_run_spec prompt clear w Hwf)
      as (b & l & response & new & w' & -> & [Hs _] & _ & Hclient & _).
    exists b. simpl. rewrite Hs. split; [done | by apply Hclient].
  - intros w w' b Hreach Hsteps. revert Hreach.
    induction Hsteps as [w|w w1 w2 Hstep _ IH]; [done |].
    intros Hreach Hb. apply IH.
    + eapply reachable_steps; [exact Hreach | by apply rtc_once].
    + eapply step_keeps_bot; [| exact Hstep | exact Hb].
      by apply reachable_invariant.
  - apply get_ai_response_ignores_environ.
Qed.

(** C9. In every state that a session reaches through runs that Streamlit
    lets run to their end, the stored history alternates user, assistant,
    user, assistant, ... from a user turn, or is empty.  In every state a
    session reaches at all, each assistant turn comes right after a user
    turn.  From every such state an interaction that runs to its end
    appends the user turn and then one assistant turn when a prompt is
    submitted, leaves the history as it is when none is, and leaves it
    empty when the clear button is pressed; a run that Streamlit stops
    leaves the history empty, or as it was, or with the user turn alone, or
    with the user turn and its reply. *)
Theorem history_alternates_between_whole_runs :
  (forall w, reachable_unstopped w ->
             alternating (history w) = true
             /\ Nat.even (length (history w)) = true)
  /\ (forall w, reachable w -> prompted (history w) = true)
  /\ (forall w prompt p,
        reachable w ->
        submitted prompt = Some p ->
        exists response,
          history (script_run prompt false w).2
          = history w ++ [ {| role := "user"; content := p |};
                           {| role := "assistant"; content := response |} ])
  /\ (forall w prompt,
        reachable w ->
        submitted prompt = None ->
        history (script_run prompt false w).2 = history w)
  /\ (forall w prompt,
        reachable w ->
        history (script_run prompt true w).2 = [])
  /\ (forall w stops prompt clear_chat_history,
        reachable w ->
        history (main_stoppable stops prompt clear_chat_history w).2 = []
        \/ history (main_stoppable stops prompt clear_chat_history w).2 = history w
        \/ exists p,
             submitted prompt = Some p
             /\ (history (main_stoppable stops prompt clear_chat_history w).2
                 = history w ++ [ {| role := "user"; content := p |} ]
                 \/ exists response,
                      history (main_stoppable stops prompt clear_chat_history w).2
                      = history w
                        ++ [ {| role := "user"; content := p |};
                             {| role := "assistant"; content := response |} ])).
Proof.
  assert (Hrun : forall w prompt clear, reachable w ->
            exists response,
              history (script_run prompt clear w).2
              = if clear then []
                else match submitted prompt with
                     | Some p =>
                         history w
                         ++ [ {| role := "user"; content := p |};
                              {| role := "assistant"; content := response |} ]
                     | None => history w
                     end).
  { intros w prompt clear Hreach.
    destruct (reachable_invariant w Hreach) as (Hwf & _).
    destruct (script_run_spec prompt clear w Hwf)
      as (b & l & response & new & w' & -> & Hready & _).
    exists response. simpl. by apply (history_ready _ _ _ _ Hready). }
  split; [| split; [| split; [| split; [| split]]]].
  - intros w Hreach.
    by apply andb_true_iff, reachable_unstopped_exchanges.
  - intros w Hreach. by destruct (reachable_invariant w Hreach) as (_ & _ & ?).
  - intros w prompt p Hreach Hp.
    destruct (Hrun w prompt false Hreach) as (response & Hhist).
    rewrite Hp in Hhist. by exists response.
  - intros w prompt Hreach Hp.
    destruct (Hrun w prompt false Hreach) as (response & Hhist).
    by rewrite Hp in Hhist.
  - intros w prompt Hreach.
    by destruct (Hrun w prompt true Hreach) as (response & Hhist).
  - intros w stops prompt clear Hreach.
    destruct (reachable_invariant w Hreach) as (Hwf & _).
    destruct (main_stoppable_cases stops prompt clear w Hwf)
      as (_ & [(prompt' & clear' & Hwhich & ->) | [(Hnone & ->) | Hun]]).
    + destruct (Hrun w prompt' clear' Hreach) as (response & ->).
      destruct clear'; [by left |].
      destruct Hwhich as [-> | ->]; [by right; left |].
      destruct (submitted prompt) as [p|]; [| by right; left].
      right. right. exists p. split; [done |]. right. by exists response.
    + by right; left.
    + destruct Hun as (p & b & l & evs & Hp & _ & Hready' & _).
      right. right. exists p. split; [done |]. left.
      by apply (history_ready _ _ _ _ Hready').
Qed.

(** C10. The constructor loads the template once, with no additional
    context; [get_ai_response] never loads it; so in every reachable state
    of a session every template load that has happened was made with
    [additional_context = None]. *)
Theorem template_rendered_without_context :
  (forall w,
      exists self warning,
        __init__ w
        = (Val self,
           {| environ := environ w; heap := heap w;
              session_state := session_state w;
              events :=
                events w ++ GetTemplate "recipe_bot_prompt.j2" None :: warning |})
        /\ Forall (fun ev => is_template_load ev = false) warning)
  /\ (forall self user_message conversation_history w,
        Forall (fun ev => is_template_load ev = false)
          (new_events w
             (get_ai_response self user_message conversation_history w).2))
  /\ (forall w name additional_context,
        reachable w ->
        GetTemplate name additional_context ∈ events w ->
        additional_context = None).
Proof.
  split; [| split].
  - intros w. destruct (init_eq w) as (prompt & warning & -> & Hw).
    eexists _, warning. split; [reflexivity |].
    eapply Forall_impl; [exact Hw |]. by intros ev [body ->].
  - intros self user_message conversation_history w.
    destruct (get_ai_response_total self user_message conversation_history w)
      as (text & new & -> & Hnew).
    unfold new_events. simpl. by rewrite drop_app_length.
  - intros w name ctx Hreach Hin.
    destruct (reachable_invariant w Hreach) as (_ & Hloads & _).
    unfold loads_without_context in Hloads.
    rewrite Forall_forall in Hloads. by eapply Hloads.
Qed.

End ChatSurface.

(** * The properties at concrete inputs *)

Lemma no_credential_answers_from_fallback_witness :
  truthy (environ (new_session ∅) !! "OPENAI_API_KEY") = false
  /\ exists self w1,
      @__init__ offline (new_session ∅) = (Val self, w1)
      /\ client self = None
      /\ @get_ai_response offline self "any cake ideas?" 1%positive sample_world
         = (Val dessert_reply, sample_world).
Proof.
  assert (Hkey : truthy (environ (new_session ∅) !! "OPENAI_API_KEY") = false)
    by reflexivity.
  split; [exact Hkey |].
  destruct (@no_credential_answers_from_fallback offline (new_session ∅) Hkey)
    as (self & w1 & Hinit & Hclient & Hcall).
  exists self, w1. split; [exact Hinit |]. split; [exact Hclient |].
  exact (Hcall "any cake ideas?" 1%positive sample_world).
Defined.

Lemma backend_failure_answers_from_fallback_witness :
  @get_ai_response offline sample_bot "any cake ideas?" 1%positive sample_world
  = (Val dessert_reply,
     add_event (StError "Error getting AI response: Connection error.")
       (add_event
          (ChatCompletionsCreate sample_client
             (spec_request "You are a recipe bot." sample_history "any cake ideas?"))
          sample_world))
  /\ @get_ai_response offline
       {| client := None; system_prompt := "You are a recipe bot." |}
       "any cake ideas?" 1%positive sample_world
     = (Val dessert_reply, sample_world).
Proof.
  apply (@backend_failure_answers_from_fallback offline sample_bot sample_client
           "any cake ideas?" 1%positive sample_world sample_history
           "Connection error.");
    reflexivity.
Defined.

Lemma backend_request_and_success_witness :
  exists request,
    openai.messages request
    = [ {| role := "system"; content := "You are a recipe bot." |} ]
      ++ sample_history
      ++ [ {| role := "user"; content := "and for dessert?" |} ]
    /\ openai.max_tokens request = 500%Z
    /\ openai.temperature request = (7 # 10)%Q
    /\ @get_ai_response online sample_bot "and for dessert?" 1%positive sample_world
       = (Val "Try carbonara.",
          add_event (ChatCompletionsCreate sample_client request) sample_world).
Proof.
  assert (Hhistory : heap sample_world !! 1%positive = Some sample_history)
    by reflexivity.
  destruct (@backend_request_and_success online sample_bot sample_client
              "and for dessert?" 1%positive sample_world sample_history
              eq_refl Hhistory)
    as (request & Hmessages & Htokens & Htemperature & _ & _ & Hsuccess).
  exists request. split; [exact Hmessages |]. split; [exact Htokens |].
  split; [exact Htemperature |].
  exact (Hsuccess
           {| openai.message := {| role := "assistant"; content := "Try carbonara." |} |}
           [] eq_refl).
Defined.

Lemma fallback_earliest_match_wins_witness :
  (@matches offline pasta_words "vegan spaghetti"
   /\ @matches offline vegetarian_words "vegan spaghetti"
   /\ @_get_fallback_response offline "vegan spaghetti" = pasta_reply)
  /\ (@matches offline meat_words "Chicken cake"
      /\ @matches offline dessert_words "Chicken cake"
      /\ @_get_fallback_response offline "Chicken cake" = meat_reply)
  /\ @_get_fallback_response offline "what's the weather" = generic_reply.
Proof.
  assert (Hpasta : @matches offline pasta_words "vegan spaghetti").
  { exists "spaghetti". split; [unfold pasta_words; repeat constructor |].
    by exists "vegan ", "". }
  assert (Hmeat : @matches offline meat_words "Chicken cake").
  { exists "chicken". split; [unfold meat_words; repeat constructor |].
    by exists "", " cake". }
  split; [| split].
  - split; [exact Hpasta |]. split.
    + exists "vegan". split; [unfold vegetarian_words; repeat constructor |].
      by exists "", " spaghetti".
    + apply (proj1 (@fallback_earliest_match_wins offline "vegan spaghetti")
               [] pasta_words pasta_reply
               [ (meat_words, meat_reply); (vegetarian_words, vegetarian_reply);
                 (dessert_words, dessert_reply) ]);
        [reflexivity | constructor | exact Hpasta].
  - split; [exact Hmeat |]. split.
    + exists "cake". split; [unfold dessert_words; repeat constructor |].
      by exists "chicken ", "".
    + apply (proj1 (@fallback_earliest_match_wins offline "Chicken cake")
               [ (pasta_words, pasta_reply) ] meat_words meat_reply
               [ (vegetarian_words, vegetarian_reply); (dessert_words, dessert_reply) ]);
        [reflexivity | | exact Hmeat].
      repeat constructor. apply (@any_word_in_false_iff offline). reflexivity.
  - apply (proj1 (proj2 (@fallback_earliest_match_wins offline "what's the weather"))).
    repeat constructor; apply (@any_word_in_false_iff offline); reflexivity.
Defined.

Lemma keyword_match_is_substring_containment_witness :
  @any_word_in meat_words (@str_lower offline "Any meatless ideas?") = true
  /\ @any_word_in dessert_words (@str_lower offline "Sweetcorn fritters") = true.
Proof.
  split.
  - apply (proj1 (proj2 (@keyword_match_is_substring_containment offline))).
    by exists "any ", " ideas?".
  - apply (proj1 (proj2 (proj2 (@keyword_match_is_substring_containment offline)))).
    by exists "", " fritters".
Defined.

Lemma load_system_prompt_failure_defaults_witness :
  @_load_system_prompt offline None (new_session ∅)
  = (Val default_system_prompt,
     add_event (StWarning "Could not load prompt template: recipe_bot_prompt.j2")
       (add_event (GetTemplate "recipe_bot_prompt.j2" None) (new_session ∅)))
  /\ substring_of "You are a helpful recipe bot assistant" default_system_prompt.
Proof.
  apply (@load_system_prompt_failure_defaults offline None (new_session ∅)
           "recipe_bot_prompt.j2").
  reflexivity.
Defined.

(** Two sessions used below: one interaction on a new session, and a
    second one after the credential has left the environment. *)
Lemma reachable_new_session `{!Runtime} env : reachable (new_session env).
Proof. exists (new_session env). split; [done | apply rtc_refl]. Qed.

Lemma reachable_interaction `{!Runtime} w prompt clear_chat_history :
  reachable w -> reachable (script_run prompt clear_chat_history w).2.
Proof.
  intros Hreach. eapply reachable_steps; [exact Hreach |].
  apply rtc_once, step_interaction.
Qed.

Lemma mode_and_prompt_fixed_at_construction_witness :
  (exists b,
      st.bot (session_state
                (@script_run online (Some "Something with noodles?") false
                   (new_session sample_environ)).2) = Some b
      /\ client b = Some sample_client)
  /\ st.bot (session_state
               (@script_run online (Some "and for dessert?") false
                  (set_environ ∅
                     (@script_run online (Some "Something with noodles?") false
                        (new_session sample_environ)).2)).2)
     = Some sample_bot.
Proof.
  split.
  - apply (proj1 (@mode_and_prompt_fixed_at_construction online)
             (new_session sample_environ) (Some "Something with noodles?") false).
    + apply reachable_new_session.
    + reflexivity.
  - apply (proj1 (proj2 (@mode_and_prompt_fixed_at_construction online))
             (@script_run online (Some "Something with noodles?") false
                (new_session sample_environ)).2).
    + apply reachable_interaction, reachable_new_session.
    + eapply rtc_l; [apply step_environ |]. apply rtc_once, step_interaction.
    + by vm_compute.
Defined.

Lemma reachable_unstopped_new_session `{!Runtime} env :
  reachable_unstopped (new_session env).
Proof. exists (new_session env). split; [done | apply rtc_refl]. Qed.

Lemma reachable_unstopped_interaction `{!Runtime} w prompt clear_chat_history :
  reachable_unstopped w ->
  reachable_unstopped (script_run prompt clear_chat_history w).2.
Proof.
  intros (w0 & Hinit & Hsteps). exists w0. split; [done |].
  eapply rtc_r; [exact Hsteps | apply whole_interaction].
Qed.

Lemma reachable_asked_again : @reachable offline asked_again.
Proof.
  apply reachable_interaction.
  eapply reachable_steps; [apply (reachable_new_session ∅) |].
  apply rtc_once, step_stopped.
Qed.

(** The alternation does not hold in every reachable state: when Streamlit
    stops the first run at the [st.write] of the reply, the prompt is
    stored without a reply, and after the next prompt the roles are user,
    user, assistant. *)
Lemma history_alternation_counterexample :
  @reachable offline asked_again
  /\ role <$> history asked_again = ["user"; "user"; "assistant"]
  /\ alternating (history asked_again) = false.
Proof.
  split; [apply reachable_asked_again |]. split; by vm_compute.
Qed.

Lemma history_alternates_between_whole_runs_witness :
  (alternating
     (history (@script_run offline (Some "any cake ideas?") false (new_session ∅)).2)
   = true
   /\ Nat.even
        (length
           (history
              (@script_run offline (Some "any cake ideas?") false (new_session ∅)).2))
      = true)
  /\ prompted (history asked_again) = true
  /\ (exists response,
        history (@script_run offline (Some "any cake ideas?") false asked_again).2
        = history asked_again
          ++ [ {| role := "user"; content := "any cake ideas?" |};
               {| role := "assistant"; content := response |} ])
  /\ history (@script_run offline None false asked_again).2 = history asked_again
  /\ history (@script_run offline None true asked_again).2 = []
  /\ (history left_unanswered = []
      \/ history left_unanswered = history (new_session ∅)
      \/ exists p,
           submitted (Some "pasta tonight?") = Some p
           /\ (history left_unanswered
               = history (new_session ∅) ++ [ {| role := "user"; content := p |} ]
               \/ exists response,
                    history left_unanswered
                    = history (new_session ∅)
                      ++ [ {| role := "user"; content := p |};
                           {| role := "assistant"; content := response |} ])).
Proof.
  split; [| split; [| split; [| split; [| split]]]].
  - apply (proj1 (@history_alternates_between_whole_runs offline)).
    apply reachable_unstopped_interaction, reachable_unstopped_new_session.
  - apply (proj1 (proj2 (@history_alternates_between_whole_runs offline))).
    apply reachable_asked_again.
  - apply (proj1 (proj2 (proj2 (@history_alternates_between_whole_runs offline)))
             asked_again (Some "any cake ideas?") "any cake ideas?").
    + apply reachable_asked_again.
    + reflexivity.
  - apply (proj1 (proj2 (proj2 (proj2
             (@history_alternates_between_whole_runs offline))))).
    + apply reachable_asked_again.
    + reflexivity.
  - apply (proj1 (proj2 (proj2 (proj2 (proj2
             (@history_alternates_between_whole_runs offline)))))).
    apply reachable_asked_again.
  - apply (proj2 (proj2 (proj2 (proj2 (proj2
             (@history_alternates_between_whole_runs offline)))))
             (new_session ∅) (stop_at 133 0) (Some "pasta tonight?") false).
    apply reachable_new_session.
Defined.

Lemma template_rendered_without_context_witness :
  GetTemplate "recipe_bot_prompt.j2" None
    ∈ events (@script_run offline (Some "any cake ideas?") false (new_session ∅)).2
  /\ @None string = None.
Proof.
  assert (Hin : GetTemplate "recipe_bot_prompt.j2" None
                  ∈ events (@script_run offline (Some "any cake ideas?") false
                              (new_session ∅)).2).
  { vm_compute. constructor. }
  split; [exact Hin |].
  apply (proj2 (proj2 (@template_rendered_without_context offline))
           (@script_run offline (Some "any cake ideas?") false (new_session ∅)).2
           "recipe_bot_prompt.j2" None).
  - apply reachable_interaction, reachable_new_session.
  - exact Hin.
Defined.

(** * Further properties of the code *)

Lemma ascii_lower_app (s1 s2 : string) :
  ascii_lower (s1 +:+ s2) = ascii_lower s1 +:+ ascii_lower s2.
Proof.
  induction s1 as [|c s1 IH]; [done |].
  rewrite append_String. simpl. by rewrite IH.
Qed.

Lemma template_loads_app (evs1 evs2 : list Event) :
  template_loads (evs1 ++ evs2) = template_loads evs1 ++ template_loads evs2.
Proof. apply List.filter_app. Qed.

Lemma backend_calls_app (evs1 evs2 : list Event) :
  backend_calls (evs1 ++ evs2) = backend_calls evs1 ++ backend_calls evs2.
Proof. apply List.filter_app. Qed.

Lemma template_loads_none (evs : list Event) :
  Forall (fun ev => is_template_load ev = false) evs -> template_loads evs = [].
Proof.
  unfold template_loads. induction 1 as [|ev evs Hev _ IH]; simpl; [done |].
  by rewrite Hev.
Qed.

Section InteractionReady.
Context `{!Runtime}.

(** Induction over the reachable states. *)
Lemma reachable_ind (P : World -> Prop) :
  (forall w, initial w -> P w) ->
  (forall w w', reachable w -> P w -> step w w' -> P w') ->
  forall w, reachable w -> P w.
Proof.
  intros Hinit Hstep w (w0 & Hw0 & Hsteps).
  assert (Hreach : reachable w0) by (exists w0; split; [done | apply rtc_refl]).
  pose proof (Hinit w0 Hw0) as HP. clear Hw0.
  induction Hsteps as [w|w w1 w2 Hs _ IH]; [done |].
  apply IH.
  - eapply reachable_steps; [exact Hreach | by apply rtc_once].
  - by eapply Hstep.
Qed.

(** The same, with the worlds a stopped run can leave spelled out: that of
    an interaction run to its end, that of a construction stopped at its
    warning, that of a prompt left without its reply. *)
Lemma reachable_cases_ind (P : World -> Prop) :
  (forall w, initial w -> P w) ->
  (forall w prompt clear_chat_history,
      reachable w -> P w -> P (script_run prompt clear_chat_history w).2) ->
  (forall w env, reachable w -> P w -> P (set_environ env w)) ->
  (forall w,
      reachable w -> P w -> st.bot (session_state w) = None ->
      P (add_event (GetTemplate "recipe_bot_prompt.j2" None) w)) ->
  (forall w w' prompt,
      reachable w -> P w -> P (script_run None false w).2 ->
      unanswered prompt w w' -> P w') ->
  forall w, reachable w -> P w.
Proof.
  intros Hinit Hrun Henv Hmade Hleft. apply reachable_ind; [exact Hinit |].
  intros w w' Hreach HP Hstep.
  destruct Hstep as [prompt clear w|env w|stops prompt clear w].
  - by apply Hrun.
  - by apply Henv.
  - destruct (reachable_invariant w Hreach) as (Hwf & _).
    destruct (main_stoppable_cases stops prompt clear w Hwf)
      as (_ & [(prompt' & clear' & _ & ->) | [(Hnone & ->) | Hun]]).
    + by apply Hrun.
    + by apply Hmade.
    + eapply Hleft; [exact Hreach | exact HP | by apply Hrun | exact Hun].
Qed.


(** A session that has no bot yet has no history yet. *)
Lemma reachable_no_bot w :
  reachable w -> st.bot (session_state w) = None -> history w = [].
Proof.
  revert w. apply (reachable_cases_ind
    (fun w => st.bot (session_state w) = None -> history w = [])).
  - intros w (Hs & _) _. unfold history. by rewrite Hs.
  - intros w prompt clear Hreach _ Hnone.
    destruct (reachable_invariant w Hreach) as (Hwf & _).
    destruct (script_run_spec prompt clear w Hwf)
      as (b & l & response & new & w' & Hrun & [Hs _] & _).
    rewrite Hrun in Hnone. simpl in Hnone. by rewrite Hs in Hnone.
  - intros w env _ IH Hnone. by apply IH.
  - intros w _ IH Hnone _. by apply IH.
  - intros w w' prompt _ _ _ (p & b0 & l & evs & _ & _ & [Hs _] & _) Hnone.
    by rewrite Hs in Hnone.
Qed.

(** Induction over the states of a session in which no run is stopped. *)
Lemma reachable_unstopped_ind (P : World -> Prop) :
  (forall w, initial w -> P w) ->
  (forall w prompt clear_chat_history,
      reachable w -> P w -> P (script_run prompt clear_chat_history w).2) ->
  (forall w env, reachable w -> P w -> P (set_environ env w)) ->
  forall w, reachable_unstopped w -> P w.
Proof.
  intros Hinit Hrun Henv w (w0 & Hw0 & Hsteps).
  assert (Hreach : reachable w0) by (exists w0; split; [done | apply rtc_refl]).
  pose proof (Hinit w0 Hw0) as HP. clear Hw0.
  induction Hsteps as [w|w w1 w2 Hs _ IH]; [done |].
  apply IH.
  - eapply reachable_steps; [exact Hreach |]. by apply rtc_once, whole_step_step.
  - destruct Hs as [prompt clear w|env w]; [by apply Hrun | by apply Henv].
Qed.

End InteractionReady.

(** ** The constructor *)

Section Constructor.
Context `{!Runtime}.

(** X1. The constructor always ends with a bot and touches neither the
    lists nor the session nor the environment.  The bot has no client
    exactly when [OPENAI_API_KEY] is unset or set to the empty string;
    otherwise the client holds the value of the variable as its key. *)
Theorem init_client_from_environment w :
  exists self w',
    __init__ w = (Val self, w')
    /\ heap w' = heap w
    /\ session_state w' = session_state w
    /\ environ w' = environ w
    /\ (client self = None
        <-> environ w !! "OPENAI_API_KEY" = None
            \/ environ w !! "OPENAI_API_KEY" = Some "")
    /\ (forall c, client self = Some c ->
                  openai.api_key c = environ w !! "OPENAI_API_KEY").
Proof.
  destruct (init_eq w) as (prompt & warning & -> & _).
  eexists _, _. split; [reflexivity |]. simpl. do 3 (split; [done |]).
  destruct (environ w !! "OPENAI_API_KEY") as [key|]; simpl.
  - destruct (String.eqb_spec key "") as [->|Hne]; simpl.
    + split; [split; [by right | done] | done].
    + split; [split; [done | by intros [? | [= ?]]] |].
      by intros c [= <-].
  - split; [split; [by left | done] | done].
Qed.

(** X2. The system prompt of a new bot is the rendered template, loaded
    under the name [recipe_bot_prompt.j2] with no additional context and
    kept as it is, when rendering succeeds; when it fails it is the default
    prompt, and the failure is shown in one warning. *)
Theorem init_system_prompt_rendered_or_default w :
  exists self w',
    __init__ w = (Val self, w')
    /\ match jinja2_render (events w) "recipe_bot_prompt.j2" None with
       | Returns text =>
           system_prompt self = text
           /\ events w' = events w ++ [GetTemplate "recipe_bot_prompt.j2" None]
       | Fails msg =>
           system_prompt self = default_system_prompt
           /\ events w'
              = events w
                ++ [ GetTemplate "recipe_bot_prompt.j2" None;
                     StWarning ("Could not load prompt template: " +:+ msg) ]
       end.
Proof.
  unfold __init__, bind, getenv.
  destruct (truthy (environ w !! "OPENAI_API_KEY")); simpl;
    rewrite load_system_prompt_eq;
    destruct (jinja2_render _ _ _); simpl;
    eexists _, _; (split; [reflexivity |]); simpl;
    by rewrite <- ?app_assoc.
Qed.

End Constructor.

(** ** The fallback responder, whatever the letter case *)

Section LetterCase.
Context `{!Runtime}.

(** X3. On utterances of ASCII characters, where [str.lower] is the ASCII
    lowering, a keyword is found in whatever letter case it is written: an
    utterance that contains a spelling whose lowercase is a word of a set
    matches the set, and when the set is the pasta set the reply is the
    pasta reply. *)
Theorem keyword_match_ignores_case (utterance spelled : string) :
  (forall s, is_ascii s = true -> str_lower s = ascii_lower s) ->
  is_ascii utterance = true ->
  substring_of spelled utterance ->
  (forall words,
      ascii_lower spelled ∈ words ->
      any_word_in words (str_lower utterance) = true)
  /\ (ascii_lower spelled ∈ pasta_words ->
      _get_fallback_response utterance = pasta_reply).
Proof.
  intros Hlower Hascii (before & after & Hsub).
  assert (Hmatch : forall words,
            ascii_lower spelled ∈ words ->
            any_word_in words (str_lower utterance) = true).
  { intros words Hin. apply any_word_in_true_iff.
    exists (ascii_lower spelled). split; [done |].
    exists (ascii_lower before), (ascii_lower after).
    by rewrite (Hlower _ Hascii), Hsub, !ascii_lower_app. }
  split; [done |]. intros Hin.
  unfold _get_fallback_response. by rewrite (Hmatch _ Hin).
Qed.

End LetterCase.

(** ** Whole interactions *)

Lemma warnings_no_template_loads (warning : list Event) :
  Forall (fun ev => exists body, ev = StWarning body) warning ->
  template_loads warning = [] /\ backend_calls warning = [].
Proof.
  unfold template_loads, backend_calls.
  induction 1 as [|ev evs [body ->] _ [IH1 IH2]]; simpl; done.
Qed.

Lemma failure_notice_no_backend_call (r : reply openai.Response) :
  backend_calls (failure_notice r) = [].
Proof. unfold failure_notice. by destruct (backend_failure r). Qed.

Lemma fallback_transcript_snoc `{!Runtime} (prompts : list string) (p : string) :
  fallback_transcript (prompts ++ [p])
  = fallback_transcript prompts
    ++ [ {| role := "user"; content := p |};
         {| role := "assistant"; content := _get_fallback_response p |} ].
Proof.
  unfold fallback_transcript. by rewrite flat_map_app.
Qed.

Lemma new_events_app (w w' : World) (new : list Event) :
  events w' = events w ++ new -> new_events w w' = new.
Proof. intros Hev. unfold new_events. by rewrite Hev, drop_app_length. Qed.

Section Interactions.
Context `{!Runtime}.

(** An interaction on a session whose bot has a client. *)
Lemma script_run_with_client w b c prompt p clear_chat_history :
  reachable w ->
  st.bot (session_state w) = Some b ->
  client b = Some c ->
  submitted prompt = Some p ->
  script_run prompt clear_chat_history w
  = (Val tt, (script_run prompt clear_chat_history w).2)
  /\ history (script_run prompt clear_chat_history w).2
     = (if clear_chat_history then []
        else history w
             ++ [ {| role := "user"; content := p |};
                  {| role := "assistant";
                     content :=
                       completion_or_fallback p
                         (chat_completions_create (events w) c
                            (spec_request (system_prompt b) (history w) p)) |} ])
  /\ events (script_run prompt clear_chat_history w).2
     = events w
       ++ ChatCompletionsCreate c (spec_request (system_prompt b) (history w) p)
          :: failure_notice
               (chat_completions_create (events w) c
                  (spec_request (system_prompt b) (history w) p)).
Proof.
  intros Hreach Hb Hc Hp.
  destruct (reachable_invariant w Hreach) as (Hwf & _).
  destruct (script_run_exact prompt clear_chat_history w Hwf)
    as (b0 & l & warning & w1 & Hready & Hbot & Henv & Hev & _ & _ & Hrest).
  rewrite <- (Hbot b Hb) in *. rewrite Hb, app_nil_r in Hev.
  rewrite Hp in Hrest. destruct Hrest as (h & w2 & Hh & Hev2 & Hcall).
  pose proof (get_ai_response_outcome b c p h w2 (history w) Hc Hh) as Hout.
  destruct (Hcall _ _ Hout) as (l' & w' & Hrun & Hready' & _ & Hev').
  rewrite Hrun. simpl. split; [done |].
  rewrite (history_ready _ _ _ _ Hready'), Hev'. simpl.
  rewrite Hev2, Hev. done.
Qed.

(** An interaction on a session whose bot has no client. *)
Lemma script_run_without_client w b prompt clear_chat_history :
  reachable w ->
  st.bot (session_state w) = Some b ->
  client b = None ->
  script_run prompt clear_chat_history w
  = (Val tt, (script_run prompt clear_chat_history w).2)
  /\ history (script_run prompt clear_chat_history w).2
     = (if clear_chat_history then []
        else match submitted prompt with
             | Some p =>
                 history w
                 ++ [ {| role := "user"; content := p |};
                      {| role := "assistant";
                         content := _get_fallback_response p |} ]
             | None => history w
             end)
  /\ events (script_run prompt clear_chat_history w).2 = events w.
Proof.
  intros Hreach Hb Hc.
  destruct (reachable_invariant w Hreach) as (Hwf & _).
  destruct (script_run_exact prompt clear_chat_history w Hwf)
    as (b0 & l & warning & w1 & Hready & Hbot & Henv & Hev & _ & _ & Hrest).
  rewrite <- (Hbot b Hb) in *. rewrite Hb, app_nil_r in Hev.
  destruct (submitted prompt) as [p|].
  - destruct Hrest as (h & w2 & Hh & Hev2 & Hcall).
    destruct (Hcall _ _ (get_ai_response_no_client b p h w2 Hc))
      as (l' & w' & Hrun & Hready' & _ & Hev').
    rewrite Hrun. simpl. split; [done |].
    rewrite (history_ready _ _ _ _ Hready'). split; [done | congruence].
  - destruct Hrest as (l' & w' & Hrun & Hready' & _ & Hev').
    rewrite Hrun. simpl. split; [done |].
    rewrite (history_ready _ _ _ _ Hready'). split; [done | congruence].
Qed.

(** X4. No exception below [Exception] escapes a run: from every
    reachable state a run of the script, wherever Streamlit stops it, ends
    normally or with the script-control exception; when no request is
    pending it ends with the rerun request exactly when the clear button
    was pressed; and an interaction with its rerun ends normally. *)
Theorem run_raises_no_exception w stops prompt clear_chat_history :
  reachable w ->
  ((main_stoppable stops prompt clear_chat_history w).1 = Val tt
   \/ (main_stoppable stops prompt clear_chat_history w).1 = Raise RerunException)
  /\ (main_stoppable never prompt clear_chat_history w).1
     = (if clear_chat_history then Raise RerunException else Val tt)
  /\ (script_run prompt clear_chat_history w).1 = Val tt.
Proof.
  intros Hreach. destruct (reachable_invariant w Hreach) as (Hwf & _).
  split; [by destruct (main_stoppable_cases stops prompt clear_chat_history w Hwf) |].
  split.
  - rewrite (main_stoppable_never _ _ _ Hwf).
    by destruct (script_run_exact prompt clear_chat_history w Hwf)
      as (? & ? & ? & ? & _ & _ & _ & _ & _ & Hmain & _).
  - by destruct (script_run_spec prompt clear_chat_history w Hwf)
      as (b & l & response & new & w' & -> & _).
Qed.

(** X5. In a session whose bot has a client, an interaction with a
    submitted prompt makes exactly one backend call.  Its request holds the
    system prompt, the history as it was before the prompt, and the prompt
    once, although the script has already stored the prompt when it calls
    the bot.  The turn stored after the user turn is the completion, or
    the fallback reply after the failure notice. *)
Theorem interaction_with_client w b c prompt p :
  reachable w ->
  st.bot (session_state w) = Some b ->
  client b = Some c ->
  submitted prompt = Some p ->
  history (script_run prompt false w).2
  = history w
    ++ [ {| role := "user"; content := p |};
         {| role := "assistant";
            content :=
              completion_or_fallback p
                (chat_completions_create (events w) c
                   (spec_request (system_prompt b) (history w) p)) |} ]
  /\ events (script_run prompt false w).2
     = events w
       ++ ChatCompletionsCreate c (spec_request (system_prompt b) (history w) p)
          :: failure_notice
               (chat_completions_create (events w) c
                  (spec_request (system_prompt b) (history w) p)).
Proof.
  intros Hreach Hb Hc Hp.
  by destruct (script_run_with_client w b c prompt p false Hreach Hb Hc Hp)
    as (_ & ? & ?).
Qed.

(** X6. After the clear button, the request of the next prompt holds the
    system turn and the user turn and nothing else, whatever was said
    before. *)
Theorem first_request_after_clear w b c prompt0 prompt p :
  reachable w ->
  st.bot (session_state w) = Some b ->
  client b = Some c ->
  submitted prompt = Some p ->
  exists request notice,
    events (script_run prompt false (script_run prompt0 true w).2).2
    = events (script_run prompt0 true w).2
      ++ ChatCompletionsCreate c request :: notice
    /\ openai.messages request
       = [ {| role := "system"; content := system_prompt b |};
           {| role := "user"; content := p |} ]
    /\ backend_calls notice = [].
Proof.
  intros Hreach Hb Hc Hp.
  set (cleared := (script_run prompt0 true w).2).
  assert (Hreach' : reachable cleared).
  { eapply reachable_steps; [exact Hreach |]. apply rtc_once, step_interaction. }
  assert (Hb' : st.bot (session_state cleared) = Some b).
  { apply (step_keeps_bot w cleared b);
      [by destruct (reachable_invariant w Hreach) | apply step_interaction
      | exact Hb]. }
  assert (Hempty : history cleared = []).
  { destruct (reachable_invariant w Hreach) as (Hwf & _).
    destruct (script_run_spec prompt0 true w Hwf)
      as (b0 & l & response & new & w' & Hrun & Hready & _).
    unfold cleared. rewrite Hrun. simpl.
    by apply (history_ready _ _ _ _ Hready). }
  destruct (script_run_with_client cleared b c prompt p false Hreach' Hb' Hc Hp)
    as (_ & _ & Hev).
  rewrite Hempty in Hev.
  eexists _, _. split; [exact Hev |]. split; [done |].
  apply failure_notice_no_backend_call.
Qed.

(** X7. In a session whose bot has no client, an interaction with a
    submitted prompt stores the user turn and the fallback reply to that
    prompt, and does nothing to the outside: no event is added. *)
Theorem interaction_without_client w b prompt p :
  reachable w ->
  st.bot (session_state w) = Some b ->
  client b = None ->
  submitted prompt = Some p ->
  history (script_run prompt false w).2
  = history w
    ++ [ {| role := "user"; content := p |};
         {| role := "assistant"; content := _get_fallback_response p |} ]
  /\ events (script_run prompt false w).2 = events w.
Proof.
  intros Hreach Hb Hc Hp.
  destruct (script_run_without_client w b prompt false Hreach Hb Hc)
    as (_ & Hhist & Hev).
  by rewrite Hp in Hhist.
Qed.

End Interactions.

(** ** What holds of every session *)

Section Sessions.
Context `{!Runtime}.

(** A full account of one interaction: the bot of the session afterwards,
    the events added, the history afterwards. *)
Lemma script_run_account prompt clear_chat_history w :
  well_formed w ->
  exists b warning,
    st.bot (session_state (script_run prompt clear_chat_history w).2) = Some b
    /\ (forall b', st.bot (session_state w) = Some b' -> b' = b)
    /\ Forall (fun ev => exists body, ev = StWarning body) warning
    /\ let made :=
         match st.bot (session_state w) with
         | Some _ => []
         | None => GetTemplate "recipe_bot_prompt.j2" None :: warning
         end in
       let outcome p c :=
         chat_completions_create (events w ++ made) c
           (spec_request (system_prompt b) (history w) p) in
       events (script_run prompt clear_chat_history w).2
       = events w ++ made
         ++ match submitted prompt, client b with
            | Some p, Some c =>
                ChatCompletionsCreate c
                  (spec_request (system_prompt b) (history w) p)
                :: failure_notice (outcome p c)
            | _, _ => []
            end
       /\ history (script_run prompt clear_chat_history w).2
          = if clear_chat_history then []
            else match submitted prompt with
                 | Some p =>
                     history w
                     ++ [ {| role := "user"; content := p |};
                          {| role := "assistant";
                             content :=
                               match client b with
                               | Some c => completion_or_fallback p (outcome p c)
                               | None => _get_fallback_response p
                               end |} ]
                 | None => history w
                 end.
Proof.
  intros Hwf.
  destruct (script_run_exact prompt clear_chat_history w Hwf)
    as (b & l & warning & w1 & Hready & Hbot & Henv & Hev & Hwarn & _ & Hrest).
  exists b, warning. simpl.
  destruct (submitted prompt) as [p|].
  - destruct Hrest as (h & w2 & Hh & Hev2 & Hcall).
    destruct (client b) as [c|] eqn:Hc.
    + pose proof (get_ai_response_outcome b c p h w2 (history w) Hc Hh) as Hout.
      destruct (Hcall _ _ Hout) as (l' & w' & Hrun & Hready' & _ & Hev').
      rewrite Hrun. simpl.
      rewrite (history_ready _ _ _ _ Hready'), Hev'. simpl.
      rewrite Hev2, Hev, <- app_assoc.
      destruct Hready' as [-> _]. done.
    + destruct (Hcall _ _ (get_ai_response_no_client b p h w2 Hc))
        as (l' & w' & Hrun & Hready' & _ & Hev').
      rewrite Hrun. simpl.
      rewrite (history_ready _ _ _ _ Hready'), Hev', Hev2, Hev, app_nil_r.
      destruct Hready' as [-> _]. done.
  - destruct Hrest as (l' & w' & Hrun & Hready' & _ & Hev').
    rewrite Hrun. simpl.
    rewrite (history_ready _ _ _ _ Hready'), Hev', Hev, app_nil_r.
    destruct Hready' as [-> _]. done.
Qed.

(** X8. A session whose bot has no client never calls the backend: in
    every reachable state of such a session no backend call is among the
    events. *)
Theorem session_without_client_never_calls_backend w b :
  reachable w ->
  st.bot (session_state w) = Some b ->
  client b = None ->
  backend_calls (events w) = [].
Proof.
  intros Hreach Hb Hc.
  cut (match st.bot (session_state w) with
       | Some b => client b = None -> backend_calls (events w) = []
       | None => backend_calls (events w) = []
       end).
  { rewrite Hb. auto. }
  clear b Hb Hc. revert w Hreach.
  apply (reachable_cases_ind
    (fun w => match st.bot (session_state w) with
              | Some b => client b = None -> backend_calls (events w) = []
              | None => backend_calls (events w) = []
              end)).
  - intros w (-> & _ & ->). done.
  - intros w prompt clear Hreach IH.
    destruct (reachable_invariant w Hreach) as (Hwf & _).
    destruct (script_run_account prompt clear w Hwf)
      as (b & warning & -> & Hbot & Hwarn & Hev & _).
    intros Hc. rewrite Hev, Hc, !backend_calls_app.
    assert (Hcalled : backend_calls
                        match submitted prompt with
                        | Some _ | _ => []
                        end = []) by (by destruct (submitted prompt)).
    rewrite Hcalled, app_nil_r.
    destruct (st.bot (session_state w)) as [b0|] eqn:Hb0.
    + rewrite (Hbot b0 eq_refl) in IH. rewrite app_nil_r. by apply IH.
    + rewrite IH. simpl. by apply warnings_no_template_loads.
  - intros w env _ IH. done.
  - intros w _ IH Hnone. simpl. rewrite Hnone in IH |- *.
    by rewrite backend_calls_app, IH.
  - intros w w' prompt _ _ IH1
      (p & b & l & evs & _ & [Hs1 _] & [Hs' _] & _ & Hev & _ & Hnoclient).
    rewrite Hs1 in IH1. rewrite Hs'. simpl in *. intros Hc.
    rewrite Hev, (Hnoclient Hc), app_nil_r. by apply IH1.
Qed.


(** The template loads of one interaction: one, with no additional
    context, when the session had no bot, and none otherwise. *)
Lemma interaction_template_loads prompt clear_chat_history w :
  well_formed w ->
  template_loads (events (script_run prompt clear_chat_history w).2)
  = template_loads (events w)
    ++ match st.bot (session_state w) with
       | Some _ => []
       | None => [GetTemplate "recipe_bot_prompt.j2" None]
       end.
Proof.
  intros Hwf.
  destruct (script_run_account prompt clear_chat_history w Hwf)
    as (b & warning & _ & _ & Hwarn & Hev & _).
  rewrite Hev, !template_loads_app.
  assert (Hcalled : forall called,
            called = match submitted prompt, client b with
                     | Some p, Some c =>
                         ChatCompletionsCreate c
                           (spec_request (system_prompt b) (history w) p)
                         :: failure_notice
                              (chat_completions_create
                                 (events w
                                  ++ match st.bot (session_state w) with
                                     | Some _ => []
                                     | None =>
                                         GetTemplate "recipe_bot_prompt.j2" None
                                         :: warning
                                     end) c
                                 (spec_request (system_prompt b) (history w) p))
                     | _, _ => []
                     end ->
            template_loads called = []).
  { intros called ->. destruct (submitted prompt), (client b); try done.
    unfold failure_notice. simpl. by destruct (backend_failure _). }
  rewrite (Hcalled _ eq_refl), app_nil_r.
  destruct (st.bot (session_state w)); [done |]. simpl.
  apply warnings_no_template_loads in Hwarn as [-> _]. done.
Qed.

Lemma step_no_new_load w w' b :
  reachable w ->
  st.bot (session_state w) = Some b ->
  step w w' ->
  template_loads (events w') = template_loads (events w).
Proof.
  intros Hreach Hb Hstep. destruct (reachable_invariant w Hreach) as (Hwf & _).
  assert (Hrun : forall prompt clear,
            template_loads (events (script_run prompt clear w).2)
            = template_loads (events w)).
  { intros prompt clear.
    by rewrite (interaction_template_loads _ _ _ Hwf), Hb, app_nil_r. }
  destruct Hstep as [prompt clear w|env w|stops prompt clear w]; [done | done |].
  destruct (main_stoppable_cases stops prompt clear w Hwf)
    as (_ & [(prompt' & clear' & _ & ->) | [(Hnone & ->) | Hun]]).
  - done.
  - by rewrite Hnone in Hb.
  - destruct Hun as (p & b0 & l & evs & _ & _ & _ & _ & Hev & Hevs & _).
    by rewrite Hev, template_loads_app, (template_loads_none _ Hevs), app_nil_r.
Qed.

(** X10. Once the session has its bot the template is never loaded again,
    whatever runs follow and wherever Streamlit stops them; and in a
    session in which no run is stopped the events hold exactly one
    template load when the session has its bot, and none before. *)
Theorem template_loaded_once_per_session :
  (forall w w' b,
      reachable w ->
      st.bot (session_state w) = Some b ->
      rtc step w w' ->
      template_loads (events w') = template_loads (events w))
  /\ (forall w,
        reachable_unstopped w ->
        length (template_loads (events w))
        = match st.bot (session_state w) with
          | Some _ => 1
          | None => 0
          end).
Proof.
  split.
  - intros w w' b Hreach Hb Hsteps. revert Hreach Hb.
    induction Hsteps as [w|w w1 w2 Hstep _ IH]; [done |].
    intros Hreach Hb.
    rewrite IH.
    + by eapply step_no_new_load.
    + eapply reachable_steps; [exact Hreach | by apply rtc_once].
    + eapply step_keeps_bot; [| exact Hstep | exact Hb].
      by apply reachable_invariant.
  - apply (reachable_unstopped_ind
      (fun w => length (template_loads (events w))
                = match st.bot (session_state w) with
                  | Some _ => 1
                  | None => 0
                  end)).
    + intros w (-> & _ & ->). done.
    + intros w prompt clear Hreach IH.
      destruct (reachable_invariant w Hreach) as (Hwf & _).
      rewrite (interaction_template_loads _ _ _ Hwf), length_app, IH.
      destruct (script_run_account prompt clear w Hwf) as (b & warning & -> & _).
      by destruct (st.bot (session_state w)).
    + intros w env _ IH. done.
Qed.

(** X11. In a session whose bot has no client the history is, in every
    reachable state, a list of prompts each followed by the fallback reply
    to it or, where Streamlit stopped the run, by nothing; when no run is
    stopped every prompt has its reply. *)
Theorem history_without_client_is_fallback_dialogue :
  (forall w b,
      reachable w ->
      st.bot (session_state w) = Some b ->
      client b = None ->
      exists asked, history w = fallback_dialogue asked)
  /\ (forall w b,
        reachable_unstopped w ->
        st.bot (session_state w) = Some b ->
        client b = None ->
        exists prompts, history w = fallback_transcript prompts).
Proof.
  split.
  - intros w b Hreach. revert b. revert w Hreach.
    apply (reachable_cases_ind
      (fun w => forall b, st.bot (session_state w) = Some b -> client b = None ->
                          exists asked, history w = fallback_dialogue asked)).
    + intros w (Hs & _) b Hb. by rewrite Hs in Hb.
    + intros w prompt clear Hreach IH.
      destruct (reachable_invariant w Hreach) as (Hwf & _).
      destruct (script_run_account prompt clear w Hwf)
        as (b & warning & Hb & Hbot & _ & _ & Hhist).
      intros b' Hb' Hc. rewrite Hb in Hb'. injection Hb' as <-.
      assert (Hbefore : exists asked, history w = fallback_dialogue asked).
      { destruct (st.bot (session_state w)) as [b0|] eqn:Hb0.
        - apply (IH b0); [done |]. by rewrite (Hbot b0 eq_refl).
        - exists []. by apply reachable_no_bot. }
      destruct Hbefore as (asked & Hasked).
      rewrite Hhist, Hc. destruct clear; [by exists [] |].
      destruct (submitted prompt) as [p|]; [| by exists asked].
      exists (asked ++ [(p, true)]).
      unfold fallback_dialogue in *. by rewrite flat_map_app, Hasked.
    + intros w env _ IH b Hb Hc. by apply (IH b).
    + intros w _ _ Hnone b Hb. simpl in Hb. by rewrite Hnone in Hb.
    + intros w w' prompt _ _ IH1
        (p & b0 & l & evs & _ & Hready1 & Hready' & _) b Hb Hc.
      assert (b = b0) as ->.
      { destruct Hready' as [Hs' _]. rewrite Hs' in Hb. by injection Hb. }
      destruct (IH1 b0) as (asked & Hasked); [by destruct Hready1 as [-> _] | done |].
      rewrite (history_ready _ _ _ _ Hready1) in Hasked.
      exists (asked ++ [(p, false)]).
      rewrite (history_ready _ _ _ _ Hready'), Hasked.
      unfold fallback_dialogue. by rewrite flat_map_app.
  - intros w b Hreach. revert b. revert w Hreach.
    apply (reachable_unstopped_ind
      (fun w => forall b, st.bot (session_state w) = Some b -> client b = None ->
                          exists prompts, history w = fallback_transcript prompts)).
    + intros w (Hs & _) b Hb. by rewrite Hs in Hb.
    + intros w prompt clear Hreach IH.
      destruct (reachable_invariant w Hreach) as (Hwf & _).
      destruct (script_run_account prompt clear w Hwf)
        as (b & warning & Hb & Hbot & _ & _ & Hhist).
      intros b' Hb' Hc. rewrite Hb in Hb'. injection Hb' as <-.
      assert (Hbefore : exists prompts, history w = fallback_transcript prompts).
      { destruct (st.bot (session_state w)) as [b0|] eqn:Hb0.
        - apply (IH b0); [done |]. by rewrite (Hbot b0 eq_refl).
        - exists []. by apply reachable_no_bot. }
      destruct Hbefore as (prompts & Hprompts).
      rewrite Hhist, Hc. destruct clear; [by exists [] |].
      destruct (submitted prompt) as [p|]; [| by exists prompts].
      exists (prompts ++ [p]). by rewrite fallback_transcript_snoc, Hprompts.
    + intros w env _ IH b Hb Hc. by apply (IH b).
Qed.

(** X12. An interaction calls the backend at most once, and not at all
    when nothing is submitted. *)
Theorem interaction_calls_backend_at_most_once w prompt clear_chat_history :
  reachable w ->
  length (backend_calls
            (new_events w (script_run prompt clear_chat_history w).2)) <= 1
  /\ (submitted prompt = None ->
      backend_calls (new_events w (script_run prompt clear_chat_history w).2) = []).
Proof.
  intros Hreach. destruct (reachable_invariant w Hreach) as (Hwf & _).
  destruct (script_run_account prompt clear_chat_history w Hwf)
    as (b & warning & _ & _ & Hwarn & Hev & _).
  rewrite (new_events_app _ _ _ Hev), backend_calls_app.
  assert (Hmade : backend_calls
                    match st.bot (session_state w) with
                    | Some _ => []
                    | None => GetTemplate "recipe_bot_prompt.j2" None :: warning
                    end = []).
  { destruct (st.bot (session_state w)); [done |]. simpl.
    by apply warnings_no_template_loads. }
  rewrite Hmade. simpl. split.
  - destruct (submitted prompt), (client b); simpl; try lia.
    rewrite failure_notice_no_backend_call. simpl. lia.
  - by intros ->.
Qed.

End Sessions.

(** * The further properties at concrete inputs *)

Lemma reachable_online_session : @reachable online online_session.
Proof. apply reachable_interaction, reachable_new_session. Qed.

Lemma reachable_offline_session : @reachable offline offline_session.
Proof. apply reachable_interaction, reachable_new_session. Qed.

Lemma online_session_bot : st.bot (session_state online_session) = Some sample_bot.
Proof. by vm_compute. Qed.

Lemma offline_session_bot : st.bot (session_state offline_session) = Some fallback_bot.
Proof. by vm_compute. Qed.

Lemma keyword_match_ignores_case_witness :
  any_word_in pasta_words (@str_lower offline "What about Spaghetti tonight?") = true
  /\ @_get_fallback_response offline "What about Spaghetti tonight?" = pasta_reply.
Proof.
  assert (Hin : ascii_lower "Spaghetti" ∈ pasta_words).
  { change (ascii_lower "Spaghetti") with "spaghetti".
    unfold pasta_words. repeat constructor. }
  destruct (@keyword_match_ignores_case offline
              "What about Spaghetti tonight?" "Spaghetti")
    as [Hset Hreply].
  - intros s _. reflexivity.
  - reflexivity.
  - by exists "What about ", " tonight?".
  - split; [exact (Hset pasta_words Hin) | exact (Hreply Hin)].
Defined.

Lemma run_raises_no_exception_witness :
  ((@main_stoppable offline (stop_at 133 0) (Some "any cake ideas?") true
      (new_session ∅)).1 = Val tt
   \/ (@main_stoppable offline (stop_at 133 0) (Some "any cake ideas?") true
         (new_session ∅)).1 = Raise RerunException)
  /\ (@main_stoppable offline never (Some "any cake ideas?") true (new_session ∅)).1
     = Raise RerunException
  /\ (@script_run offline (Some "any cake ideas?") true (new_session ∅)).1 = Val tt.
Proof.
  apply (@run_raises_no_exception offline (new_session ∅) (stop_at 133 0)
           (Some "any cake ideas?") true).
  apply reachable_new_session.
Defined.

Lemma interaction_with_client_witness :
  history (@script_run online (Some "and for dessert?") false online_session).2
  = history online_session
    ++ [ {| role := "user"; content := "and for dessert?" |};
         {| role := "assistant";
            content :=
              @completion_or_fallback online "and for dessert?"
                (@chat_completions_create online (events online_session) sample_client
                   (spec_request (system_prompt sample_bot) (history online_session)
                      "and for dessert?")) |} ]
  /\ events (@script_run online (Some "and for dessert?") false online_session).2
     = events online_session
       ++ ChatCompletionsCreate sample_client
            (spec_request (system_prompt sample_bot) (history online_session)
               "and for dessert?")
          :: failure_notice
               (@chat_completions_create online (events online_session) sample_client
                  (spec_request (system_prompt sample_bot) (history online_session)
                     "and for dessert?")).
Proof.
  apply (@interaction_with_client online online_session sample_bot sample_client
           (Some "and for dessert?") "and for dessert?").
  - apply reachable_online_session.
  - apply online_session_bot.
  - reflexivity.
  - reflexivity.
Defined.

Lemma first_request_after_clear_witness :
  exists request notice,
    events (@script_run online (Some "and for dessert?") false
              (@script_run online None true online_session).2).2
    = events (@script_run online None true online_session).2
      ++ ChatCompletionsCreate sample_client request :: notice
    /\ openai.messages request
       = [ {| role := "system"; content := system_prompt sample_bot |};
           {| role := "user"; content := "and for dessert?" |} ]
    /\ backend_calls notice = [].
Proof.
  apply (@first_request_after_clear online online_session sample_bot sample_client
           None (Some "and for dessert?") "and for dessert?").
  - apply reachable_online_session.
  - apply online_session_bot.
  - reflexivity.
  - reflexivity.
Defined.

Lemma interaction_without_client_witness :
  history (@script_run offline (Some "Chicken tonight") false offline_session).2
  = history offline_session
    ++ [ {| role := "user"; content := "Chicken tonight" |};
         {| role := "assistant";
            content := @_get_fallback_response offline "Chicken tonight" |} ]
  /\ events (@script_run offline (Some "Chicken tonight") false offline_session).2
     = events offline_session.
Proof.
  apply (@interaction_without_client offline offline_session fallback_bot
           (Some "Chicken tonight") "Chicken tonight").
  - apply reachable_offline_session.
  - apply offline_session_bot.
  - reflexivity.
  - reflexivity.
Defined.

Lemma session_without_client_never_calls_backend_witness :
  backend_calls (events offline_session) = [].
Proof.
  apply (@session_without_client_never_calls_backend offline offline_session
           fallback_bot).
  - apply reachable_offline_session.
  - apply offline_session_bot.
  - reflexivity.
Defined.


(** A construction that Streamlit stops at its warning has loaded the
    template and stored no bot: the count of loads follows the bot only
    when no run is stopped. *)
Lemma load_without_bot_after_stopped_construction :
  @reachable offline construction_stopped
  /\ st.bot (session_state construction_stopped) = None
  /\ template_loads (events construction_stopped)
     = [GetTemplate "recipe_bot_prompt.j2" None].
Proof.
  split; [| split; by vm_compute].
  eapply reachable_steps; [apply (reachable_new_session ∅) |].
  apply rtc_once, step_stopped.
Qed.

Lemma template_loaded_once_per_session_witness :
  template_loads (events asked_again) = template_loads (events left_unanswered)
  /\ length (template_loads (events online_session))
     = match st.bot (session_state online_session) with
       | Some _ => 1
       | None => 0
       end.
Proof.
  split.
  - apply (proj1 (@template_loaded_once_per_session offline)
             left_unanswered asked_again fallback_bot).
    + eapply reachable_steps; [apply (reachable_new_session ∅) |].
      apply rtc_once, step_stopped.
    + by vm_compute.
    + apply rtc_once, step_interaction.
  - apply (proj2 (@template_loaded_once_per_session online) online_session).
    apply reachable_unstopped_interaction, reachable_unstopped_new_session.
Defined.

Lemma history_without_client_is_fallback_dialogue_witness :
  (exists asked, history asked_again = @fallback_dialogue offline asked)
  /\ (exists prompts, history offline_session = @fallback_transcript offline prompts).
Proof.
  split.
  - apply (proj1 (@history_without_client_is_fallback_dialogue offline)
             asked_again fallback_bot).
    + apply reachable_asked_again.
    + by vm_compute.
    + reflexivity.
  - apply (proj2 (@history_without_client_is_fallback_dialogue offline)
             offline_session fallback_bot).
    + apply reachable_unstopped_interaction, reachable_unstopped_new_session.
    + apply offline_session_bot.
    + reflexivity.
Defined.

Lemma interaction_calls_backend_at_most_once_witness :
  length (backend_calls
            (new_events online_session
               (@script_run online (Some "and for dessert?") true online_session).2))
  <= 1
  /\ backend_calls
       (new_events online_session
          (@script_run online None false online_session).2)
     = [].
Proof.
  split.
  - apply (@interaction_calls_backend_at_most_once online online_session
             (Some "and for dessert?") true).
    apply reachable_online_session.
  - apply (@interaction_calls_backend_at_most_once online online_session
             None false).
    + apply reachable_online_session.
    + reflexivity.
Defined.
